(** * Stacks wallet: transaction request verification, construction,
      broadcast and submission.

    A shallow embedding of [generateTransaction], [finishTransaction],
    [verifyTxRequest] (with their helpers) and of the handler returned by
    [useHandleSubmitTransaction], followed by the properties established
    about them.

    JavaScript values are modelled by [Js.JsVal]; thrown exceptions by the
    [Throw] outcome; calls into the signing, network, cryptography and UI
    libraries are recorded, in program order, in a trace of events. *)

From Stdlib Require Import ZArith List String Ascii Bool Lia DecimalString.
From Stdlib.Strings Require Import Byte.
Import ListNotations.
Set Warnings "-register-all".
Local Open Scope string_scope.
Local Open Scope list_scope.

(* ================================================================== *)
(** ** JavaScript values and the string/buffer primitives the code uses *)
(* ================================================================== *)

Module Js.

(** The JavaScript values that reach the modelled code.  Numbers are
    restricted to integers; [JsBN] is a [bn.js] big integer; [JsObj] is a
    plain object with its own properties in insertion order. *)
Inductive JsVal : Type :=
| JsUndefined
| JsNull
| JsBool (b : bool)
| JsNum (z : Z)
| JsStr (s : string)
| JsBN (z : Z)
| JsObj (fields : list (string * JsVal)).

(** ToBoolean: what [if (v)], [!v] and [a && b] test. *)
Definition truthy (v : JsVal) : bool :=
  match v with
  | JsUndefined | JsNull => false
  | JsBool b => b
  | JsNum z => negb (Z.eqb z 0)
  | JsStr s => negb (String.eqb s EmptyString)
  | JsBN _ | JsObj _ => true
  end.

(** Truthiness of an optional string property ([undefined] when absent). *)
Definition truthy_str (o : option string) : bool :=
  match o with
  | None => false
  | Some s => negb (String.eqb s EmptyString)
  end.

Definition string_of_Z (z : Z) : string := NilZero.string_of_int (Z.to_int z).

(** ToString, as applied by a template literal.  How a number prints is
    the runtime's business (decimal digits for small magnitudes, exponent
    form from 10^21 on) and is left to [number_toString]; a [bn.js] integer
    prints all its decimal digits. *)
Definition toString (number_toString : Z -> string) (v : JsVal) : string :=
  match v with
  | JsUndefined => "undefined"
  | JsNull => "null"
  | JsBool true => "true"
  | JsBool false => "false"
  | JsNum z => number_toString z
  | JsStr s => s
  | JsBN z => string_of_Z z
  | JsObj _ => "[object Object]"
  end.

(** Own-property lookup in a plain object. *)
Fixpoint lookup (k : string) (fields : list (string * JsVal)) : option JsVal :=
  match fields with
  | [] => None
  | (k', v) :: rest => if String.eqb k k' then Some v else lookup k rest
  end.

(** [k in o] for a plain object. *)
Definition has_key (k : string) (fields : list (string * JsVal)) : bool :=
  match lookup k fields with Some _ => true | None => false end.

(** [{...o, k: v}]: the copy keeps the position of an existing key and
    appends a new one. *)
Fixpoint spread_set (fields : list (string * JsVal)) (k : string) (v : JsVal)
  : list (string * JsVal) :=
  match fields with
  | [] => [(k, v)]
  | (k', v') :: rest =>
      if String.eqb k k' then (k', v) :: rest
      else (k', v') :: spread_set rest k v
  end.

(** The double-quote character. *)
Definition dquote : ascii := ascii_of_nat 34.
Definition dquote_str : string := String dquote EmptyString.

(** [s.startsWith(p)] *)
Fixpoint starts_with (p s : string) : bool :=
  match p, s with
  | EmptyString, _ => true
  | String a p', String b s' => Ascii.eqb a b && starts_with p' s'
  | String _ _, EmptyString => false
  end.

Fixpoint drop (n : nat) (s : string) : string :=
  match n, s with
  | O, _ => s
  | S n', String _ s' => drop n' s'
  | S _, EmptyString => EmptyString
  end.

(** [s.replace(pat, rep)] with a string pattern: only the first
    occurrence of [pat] is replaced. *)
Fixpoint replace (pat rep s : string) : string :=
  if starts_with pat s then (rep ++ drop (String.length pat) s)%string
  else match s with
       | EmptyString => EmptyString
       | String c s' => String c (replace pat rep s')
       end.

(** [s.replace(/pat/g, rep)] for a one-character pattern: every occurrence
    is removed.  Not used by the code; it is the yardstick for the
    stripping of all quotes. *)
Fixpoint remove_all (c : ascii) (s : string) : string :=
  match s with
  | EmptyString => EmptyString
  | String d s' => if Ascii.eqb c d then remove_all c s' else String d (remove_all c s')
  end.

(** Node buffers. *)
Definition Buffer : Type := list byte.

Definition hex_digit (n : N) : ascii :=
  ascii_of_N (if (n <? 10)%N then 48 + n else 87 + n)%N.

(** [buf.toString('hex')] *)
Fixpoint toString_hex (b : Buffer) : string :=
  match b with
  | [] => EmptyString
  | x :: rest =>
      let n := Byte.to_N x in
      String (hex_digit (n / 16)%N) (String (hex_digit (n mod 16)%N) (toString_hex rest))
  end.

Definition hex_value (c : ascii) : option N :=
  let n := N_of_ascii c in
  if ((48 <=? n) && (n <=? 57))%N then Some (n - 48)%N
  else if ((97 <=? n) && (n <=? 102))%N then Some (n - 87)%N
  else if ((65 <=? n) && (n <=? 70))%N then Some (n - 55)%N
  else None.

(** [Buffer.from(s, 'hex')]: pairs of hex digits are decoded until the
    first pair that is not hexadecimal; an odd last digit is dropped. *)
Fixpoint from_hex (s : string) : Buffer :=
  match s with
  | String a (String b rest) =>
      match hex_value a, hex_value b with
      | Some h, Some l =>
          match Byte.of_N (16 * h + l) with
          | Some x => x :: from_hex rest
          | None => []
          end
      | _, _ => []
      end
  | _ => []
  end.

End Js.

(* ================================================================== *)
(** ** Outcomes and traced computations *)
(* ================================================================== *)

Module Eff.

(** The outcome of a call: a value, or a thrown [Error] with its message. *)
Inductive Result (A : Type) : Type :=
| Ok (a : A)
| Throw (msg : string).
Arguments Ok {A} a.
Arguments Throw {A} msg.

Section Traced.
Variable E : Type.

(** A computation: the events it performed, in order, and its outcome. *)
Definition M (A : Type) : Type := (list E * Result A)%type.

Definition ret {A} (a : A) : M A := ([], Ok a).
Definition throw {A} (msg : string) : M A := ([], Throw msg).
Definition emit (e : E) : M unit := ([e], Ok tt).

(** An external call: recorded, then its outcome. *)
Definition call {A} (e : E) (r : Result A) : M A := ([e], r).

(** A pure fallible step, not recorded. *)
Definition lift {A} (r : Result A) : M A := ([], r).

Definition bind {A B} (m : M A) (f : A -> M B) : M B :=
  match m with
  | (t, Ok a) => let (t', r) := f a in (t ++ t', r)
  | (t, Throw msg) => (t, Throw msg)
  end.

(** [try { m } catch (e) { h e }] *)
Definition try_catch {A} (m : M A) (h : string -> M A) : M A :=
  match m with
  | (t, Ok a) => (t, Ok a)
  | (t, Throw msg) => let (t', r) := h msg in (t ++ t', r)
  end.

Definition trace {A} (m : M A) : list E := fst m.
Definition outcome {A} (m : M A) : Result A := snd m.
End Traced.

Arguments ret {E A} a.
Arguments throw {E A} msg.
Arguments emit {E} e.
Arguments call {E A} e r.
Arguments lift {E A} r.
Arguments bind {E A B} m f.
Arguments try_catch {E A} m h.
Arguments trace {E A} m.
Arguments outcome {E A} m.

(** Sequencing in the pure [Result] monad. *)
Definition rbind {A B} (r : Result A) (f : A -> Result B) : Result B :=
  match r with
  | Ok a => f a
  | Throw msg => Throw msg
  end.

(** [xs.map(f)] where [f] may throw: the first exception aborts the map. *)
Fixpoint map_result {A B} (f : A -> Result B) (xs : list A) : Result (list B) :=
  match xs with
  | [] => Ok []
  | x :: rest =>
      rbind (f x) (fun y => rbind (map_result f rest) (fun ys => Ok (y :: ys)))
  end.

(** [xs.find(p)] where the callback [p] performs recorded calls. *)
Fixpoint find {E A} (p : A -> M E bool) (xs : list A) : M E (option A) :=
  match xs with
  | [] => ret None
  | x :: rest => bind (p x) (fun b => if b then ret (Some x) else find p rest)
  end.

End Eff.

Declare Scope eff_scope.
Delimit Scope eff_scope with eff.
Notation "x <- m ;; k" := (Eff.bind m (fun x => k))
  (at level 61, m at next level, right associativity) : eff_scope.
Notation "m ;;; k" := (Eff.bind m (fun _ => k))
  (at level 61, right associativity) : eff_scope.
Notation "x <~ r ;; k" := (Eff.rbind r (fun x => k))
  (at level 61, r at next level, right associativity) : eff_scope.

Import Js Eff.
Local Open Scope eff_scope.

(* ================================================================== *)
(** ** Transactions: construction, broadcast and request verification *)
(* ================================================================== *)

Module Tx.

(** *** Data *)

(** A network object: its version tag, and the [getTransferFeeEstimateApiUrl]
    method when the object has one (identified here by the URL it gives). *)
Record StacksNetwork : Type := {
  version : Z;
  coreApiUrl : string;
  getTransferFeeEstimateApiUrl : option string
}.

(** An entry of [postConditions]: a hex string or a structured object. *)
Inductive PostConditionEntry : Type :=
| PcHex (hex : string)
| PcObj (fields : list (string * JsVal)).

(** A structured post-condition is a plain object. *)
Definition PostCondition : Type := list (string * JsVal).

(** Clarity values are opaque objects of the transactions library. *)
Definition ClarityValue : Type := JsVal.

Definition BN : Type := Z.

(** [TransactionPayload], with the fields of its three variants side by
    side, as in the object decoded from a request. *)
Record TransactionPayload : Type := {
  txType : string;
  network : option StacksNetwork;
  publicKey : option string;
  stxAddress : option string;
  postConditionMode : option Z;
  postConditions : option (list PostConditionEntry);
  contractAddress : string;
  contractName : string;
  functionName : string;
  functionArgs : list string;
  codeBody : string;
  recipient : string;
  memo : option string;
  amount : string
}.

(** [txData.network = n] *)
Definition set_network (txData : TransactionPayload) (n : StacksNetwork)
  : TransactionPayload :=
  {| txType := txType txData;
     network := Some n;
     publicKey := publicKey txData;
     stxAddress := stxAddress txData;
     postConditionMode := postConditionMode txData;
     postConditions := postConditions txData;
     contractAddress := contractAddress txData;
     contractName := contractName txData;
     functionName := functionName txData;
     functionArgs := functionArgs txData;
     codeBody := codeBody txData;
     recipient := recipient txData;
     memo := memo txData;
     amount := amount txData |}.

(** A signed transaction, observed through [serialize()]. *)
Record StacksTransaction : Type := { serialize : Buffer }.

(** [BufferReader]: a buffer and a read offset. *)
Record BufferReader : Type := { rd_buffer : Buffer; rd_offset : nat }.

(** Modelled from the spec: [BufferReader.fromBuffer] belongs to the
    transactions library, which is not among the sources; the spec has the
    entry read by a binary reader positioned at offset 0 over the buffer. *)
Definition BufferReader_fromBuffer (b : Buffer) : BufferReader :=
  {| rd_buffer := b; rd_offset := 0 |}.

Record ContractCallOptions : Type := {
  cc_contractName : string;
  cc_contractAddress : string;
  cc_functionName : string;
  cc_senderKey : string;
  cc_functionArgs : list ClarityValue;
  cc_nonce : option BN;
  cc_postConditionMode : option Z;
  cc_postConditions : option (list PostCondition);
  cc_network : option StacksNetwork
}.

Record ContractDeployOptions : Type := {
  cd_contractName : string;
  cd_codeBody : string;
  cd_nonce : option BN;
  cd_senderKey : string;
  cd_postConditionMode : option Z;
  cd_postConditions : option (list PostCondition);
  cd_network : option StacksNetwork
}.

Record TokenTransferOptions : Type := {
  tt_recipient : string;
  tt_memo : option string;
  tt_senderKey : string;
  tt_amount : BN;
  tt_nonce : option BN;
  tt_network : option StacksNetwork
}.

(** The [fetch] response of the node: its [ok] flag and what [json()]
    resolves to. *)
Record Response : Type := { ok : bool; json : Result JsVal }.

Record FinishedTxPayload : Type := { txId : string; txRaw : string }.

Record Account : Type := { stxPrivateKey : string; appsKey : string }.
Record Wallet : Type := { accounts : list Account }.

Record TokenVerifier : Type := { tv_algorithm : string; tv_publicKey : option string }.

(** *** The libraries the module imports

    Their functions and constants are parameters of the development.  A
    function that parses input, signs or talks to the network may throw;
    key derivation from the wallet's own key material is total. *)
Record Lib : Type := {
  (* @stacks/transactions *)
  deserializeCV : Buffer -> Result ClarityValue;
  deserializePostCondition : BufferReader -> Result PostCondition;
  makeContractCall : ContractCallOptions -> Result StacksTransaction;
  makeContractDeploy : ContractDeployOptions -> Result StacksTransaction;
  makeSTXTokenTransfer : TokenTransferOptions -> Result StacksTransaction;
  getAddressFromPrivateKey : string -> Z -> string;
  TransactionVersion_Mainnet : Z;
  TransactionVersion_Testnet : Z;
  (* bn.js: [new BN(v, base)], [base] absent when not given *)
  new_BN : JsVal -> option Z -> Result BN;
  (* @stacks/network: the objects [new StacksMainnet()], [new StacksTestnet()] *)
  new_StacksMainnet : StacksNetwork;
  new_StacksTestnet : StacksNetwork;
  (* @stacks/connect *)
  TransactionTypes_ContractCall : string;
  TransactionTypes_ContractDeploy : string;
  TransactionTypes_STXTransfer : string;
  (* @stacks/rpc-client: [new RPCClient(nodeUrl).broadcastTX(bytes)] *)
  broadcastTX : string -> Buffer -> Result Response;
  (* jsontokens *)
  decodeToken : string -> Result TransactionPayload;
  new_TokenVerifier : string -> option string -> Result TokenVerifier;
  verifyAsync : TokenVerifier -> string -> Result bool;
  (* @stacks/wallet-sdk, @stacks/encryption *)
  getAppPrivateKey : Account -> string -> string;
  getPublicKeyFromPrivate : string -> string;
  (* the JavaScript runtime: how a number prints in a template literal *)
  Number_toString : Z -> string
}.

(** Calls into the libraries, as recorded in the trace. *)
Inductive Event : Type :=
| EvMakeContractCall (opts : ContractCallOptions)
| EvMakeContractDeploy (opts : ContractDeployOptions)
| EvMakeSTXTokenTransfer (opts : TokenTransferOptions)
| EvBroadcastTX (nodeUrl : string) (bytes : Buffer)
| EvConsoleError (v : JsVal)
| EvDecodeToken (requestToken : string)
| EvNewTokenVerifier (algorithm : string) (key : option string)
| EvVerifyAsync (requestToken : string)
| EvGetAppPrivateKey (account : Account) (appDomain : string)
| EvGetPublicKeyFromPrivate (privateKey : string)
| EvGetAddressFromPrivateKey (privateKey : string) (txVersion : Z).

(** *** The code *)

Section Code.
Variable lib : Lib.

(** [o.k] for a plain object: [undefined] when the property is absent. *)
Definition get (k : string) (fields : list (string * JsVal)) : JsVal :=
  match lookup k fields with
  | Some v => v
  | None => JsUndefined
  end.

(** The callback of [postConditions.map] in [getPostConditions]. *)
Definition normalizePostCondition (postCondition : PostConditionEntry)
  : Result PostCondition :=
  match postCondition with
  | PcHex hex =>
      let reader := BufferReader_fromBuffer (from_hex hex) in
      deserializePostCondition lib reader
  | PcObj fields =>
      if has_key "amount" fields && truthy (get "amount" fields) then
        a <~ new_BN lib (get "amount" fields) (Some 16%Z) ;;
        Ok (spread_set fields "amount" (JsBN a))
      else Ok fields
  end.

Definition getPostConditions (postConditions : option (list PostConditionEntry))
  : Result (option (list PostCondition)) :=
  match postConditions with
  | None => Ok None
  | Some entries =>
      pcs <~ map_result normalizePostCondition entries ;;
      Ok (Some pcs)
  end.

(** [nonce !== undefined ? new BN(nonce, 10) : undefined] *)
Definition nonce_BN (nonce : option Z) : Result (option BN) :=
  match nonce with
  | Some n => b <~ new_BN lib (JsNum n) (Some 10%Z) ;; Ok (Some b)
  | None => Ok None
  end.

Definition generateContractCallTx (txData : TransactionPayload)
    (senderKey : string) (nonce : option Z) : M Event StacksTransaction :=
  args <- lift (map_result (fun arg => deserializeCV lib (from_hex arg))
                  (functionArgs txData)) ;;
  n <- lift (nonce_BN nonce) ;;
  pcs <- lift (getPostConditions (postConditions txData)) ;;
  let opts :=
    {| cc_contractName := contractName txData;
       cc_contractAddress := contractAddress txData;
       cc_functionName := functionName txData;
       cc_senderKey := senderKey;
       cc_functionArgs := args;
       cc_nonce := n;
       cc_postConditionMode := postConditionMode txData;
       cc_postConditions := pcs;
       cc_network := network txData |} in
  call (EvMakeContractCall opts) (makeContractCall lib opts).

Definition generateContractDeployTx (txData : TransactionPayload)
    (senderKey : string) (nonce : option Z) : M Event StacksTransaction :=
  n <- lift (nonce_BN nonce) ;;
  pcs <- lift (getPostConditions (postConditions txData)) ;;
  let opts :=
    {| cd_contractName := contractName txData;
       cd_codeBody := codeBody txData;
       cd_nonce := n;
       cd_senderKey := senderKey;
       cd_postConditionMode := postConditionMode txData;
       cd_postConditions := pcs;
       cd_network := network txData |} in
  call (EvMakeContractDeploy opts) (makeContractDeploy lib opts).

Definition generateSTXTransferTx (txData : TransactionPayload)
    (senderKey : string) (nonce : option Z) : M Event StacksTransaction :=
  a <- lift (new_BN lib (JsStr (amount txData)) None) ;;
  n <- lift (nonce_BN nonce) ;;
  let opts :=
    {| tt_recipient := recipient txData;
       tt_memo := memo txData;
       tt_senderKey := senderKey;
       tt_amount := a;
       tt_nonce := n;
       tt_network := network txData |} in
  call (EvMakeSTXTokenTransfer opts) (makeSTXTokenTransfer lib opts).

(** [txData.network?.getTransferFeeEstimateApiUrl] is truthy. *)
Definition has_fee_estimate (n : option StacksNetwork) : bool :=
  match n with
  | Some net =>
      match getTransferFeeEstimateApiUrl net with Some _ => true | None => false end
  | None => false
  end.

(** [txData.network?.version === TransactionVersion.Mainnet] *)
Definition is_mainnet (n : option StacksNetwork) : bool :=
  match n with
  | Some net => Z.eqb (version net) (TransactionVersion_Mainnet lib)
  | None => false
  end.

(** The first statement of [generateTransaction]: the payload as it is
    after the conditional assignment to [txData.network]. *)
Definition resolveNetwork (txData : TransactionPayload) : TransactionPayload :=
  if negb (has_fee_estimate (network txData)) then
    let network' :=
      if is_mainnet (network txData) then new_StacksMainnet lib
      else new_StacksTestnet lib in
    set_network txData network'
  else txData.

(** The [switch] of [generateTransaction] and the check that follows it. *)
Definition dispatch (txData : TransactionPayload) (senderKey : string)
    (nonce : option Z) : M Event StacksTransaction :=
  tx <- (if String.eqb (txType txData) (TransactionTypes_ContractCall lib) then
           t <- generateContractCallTx txData senderKey nonce ;; ret (Some t)
         else if String.eqb (txType txData) (TransactionTypes_ContractDeploy lib) then
           t <- generateContractDeployTx txData senderKey nonce ;; ret (Some t)
         else if String.eqb (txType txData) (TransactionTypes_STXTransfer lib) then
           t <- generateSTXTransferTx txData senderKey nonce ;; ret (Some t)
         else ret None) ;;
  match tx with
  | None => throw ("Invalid Transaction Type: " ++ txType txData)%string
  | Some t => ret t
  end.

(** [generateTransaction]: the payload object as the call leaves it (its
    [network] may have been assigned), and the traced outcome. *)
Definition generateTransaction (txData : TransactionPayload) (senderKey : string)
    (nonce : option Z) : TransactionPayload * M Event StacksTransaction :=
  let txData' := resolveNetwork txData in
  (txData', dispatch txData' senderKey nonce).

(** [v.k] for [k] one of [error], [reason]: reading a property of
    [undefined] or [null] throws; a primitive has no such property. *)
Definition get_prop (v : JsVal) (k : string) : Result JsVal :=
  match v with
  | JsUndefined | JsNull => Throw "TypeError: Cannot read properties of undefined or null"
  | JsObj fields => Ok (get k fields)
  | _ => Ok JsUndefined
  end.

(** [finishTransaction]; its [pendingTransaction] argument is not read. *)
Definition finishTransaction (tx : StacksTransaction) (nodeUrl : string)
  : M Event FinishedTxPayload :=
  let serialized := serialize tx in
  res <- call (EvBroadcastTX nodeUrl serialized) (broadcastTX lib nodeUrl serialized) ;;
  if ok res then
    txIdJson <- lift (json res) ;;
    match txIdJson with
    | JsStr s =>
        let txId := ("0x" ++ Js.replace dquote_str EmptyString s)%string in
        let txRaw := ("0x" ++ toString_hex serialized)%string in
        ret {| txId := txId; txRaw := txRaw |}
    | _ => throw "TypeError: txIdJson.replace is not a function"
    end
  else
    response <- lift (json res) ;;
    err <- lift (get_prop response "error") ;;
    if truthy err then
      reason <- lift (get_prop response "reason") ;;
      let error := (toString (Number_toString lib) err ++ " - "
                    ++ toString (Number_toString lib) reason)%string in
      emit (EvConsoleError err) ;;;
      emit (EvConsoleError reason) ;;;
      throw error
    else throw "Unable to submit transaction".

(** [[Mainnet, Testnet].includes(v)] *)
Definition known_version (v : Z) : bool :=
  existsb (Z.eqb v) [TransactionVersion_Mainnet lib; TransactionVersion_Testnet lib].

Definition getTransactionVersionFromRequest (tx : TransactionPayload) : Result Z :=
  match network tx with
  | None => Ok (TransactionVersion_Mainnet lib)
  | Some net =>
      if negb (known_version (version net)) then
        Throw "Invalid network version provided"
      else Ok (version net)
  end.

Definition UNAUTHORIZED_TX_REQUEST : string :=
  "The transaction request provided is not signed by this wallet.".

(** [a !== b] between a derived key and the payload's optional key. *)
Definition key_differs (appPublicKey : string) (publicKey : option string) : bool :=
  match publicKey with
  | Some k => negb (String.eqb appPublicKey k)
  | None => true
  end.

(** The callback of [wallet.accounts.find] in [verifyTxRequest]. *)
Definition accountMatches (publicKey stxAddress : option string) (txVersion : Z)
    (appDomain : string) (account : Account) : M Event bool :=
  appPrivateKey <- call (EvGetAppPrivateKey account appDomain)
                     (Ok (getAppPrivateKey lib account appDomain)) ;;
  appPublicKey <- call (EvGetPublicKeyFromPrivate appPrivateKey)
                    (Ok (getPublicKeyFromPrivate lib appPrivateKey)) ;;
  if key_differs appPublicKey publicKey then ret false
  else if negb (truthy_str stxAddress) then ret true
  else
    accountStxAddress <-
      call (EvGetAddressFromPrivateKey (stxPrivateKey account) txVersion)
        (Ok (getAddressFromPrivateKey lib (stxPrivateKey account) txVersion)) ;;
    if key_differs accountStxAddress stxAddress then ret false
    else ret true.

Definition verifyTxRequest (requestToken : string) (wallet : Wallet)
    (appDomain : string) : M Event TransactionPayload :=
  tx <- call (EvDecodeToken requestToken) (decodeToken lib requestToken) ;;
  let publicKey := publicKey tx in
  let stxAddress := stxAddress tx in
  txVersion <- lift (getTransactionVersionFromRequest tx) ;;
  verifier <- call (EvNewTokenVerifier "ES256k" publicKey)
                (new_TokenVerifier lib "ES256k" publicKey) ;;
  isSigned <- call (EvVerifyAsync requestToken) (verifyAsync lib verifier requestToken) ;;
  if negb isSigned then throw "Transaction request is not signed"
  else
    foundAccount <- Eff.find (accountMatches publicKey stxAddress txVersion appDomain)
                      (accounts wallet) ;;
    match foundAccount with
    | None => throw UNAUTHORIZED_TX_REQUEST
    | Some _ => ret tx
    end.

End Code.

End Tx.

(* ================================================================== *)
(** ** The submission handler of [useHandleSubmitTransaction] *)
(* ================================================================== *)

Module Submit.

(** What [broadcastTransaction] resolves to: the transaction id (a
    string), or a rejection object with its [reason]. *)
Inductive TxBroadcastResult : Type :=
| TxBroadcastResultOk (txid : string)
| TxBroadcastResultRejected (reason : string).

(** The values the hook closes over: its arguments and what the other
    hooks gave it.  Each callback may throw. *)
Record Hooks : Type := {
  transaction : option Tx.StacksTransaction;
  onClose : Result unit;
  stacksNetwork : Tx.StacksNetwork;
  setIsLoading : Result unit;
  setIsIdle : Result unit;
  doChangeScreen : string -> Result unit;
  doSetLatestNonce : Tx.StacksTransaction -> Result unit;
  revalidate : Result unit;
  broadcastTransaction : Tx.StacksTransaction -> Tx.StacksNetwork -> Result TxBroadcastResult;
  toast_error : string -> Result unit;
  toast_success : string -> Result unit;
  ScreenPaths_HOME : string
}.

Inductive Event : Type :=
| EvSetIsLoading
| EvBroadcastTransaction (tx : Tx.StacksTransaction) (net : Tx.StacksNetwork)
| EvToastError (message : string)
| EvToastSuccess (message : string)
| EvDoSetLatestNonce (tx : Tx.StacksTransaction)
| EvRevalidate
| EvOnClose
| EvSetIsIdle
| EvDoChangeScreen (screen : string).

Definition getErrorMessage (reason : string) : string :=
  if String.eqb reason "ConflictingNonceInMempool" then "Nonce conflict, try again soon."
  else if String.eqb reason "BadNonce" then "Incorrect nonce."
  else if String.eqb reason "NotEnoughFunds" then "Not enough funds."
  else if String.eqb reason "FeeTooLow" then "Fee is too low."
  else "Something went wrong".

Section Handler.
Variable h : Hooks.

(** The body of the [try] block. *)
Definition attempt (tx : Tx.StacksTransaction) : M Event unit :=
  response <- call (EvBroadcastTransaction tx (stacksNetwork h))
                (broadcastTransaction h tx (stacksNetwork h)) ;;
  match response with
  | TxBroadcastResultRejected reason =>
      call (EvToastError (getErrorMessage reason))
        (toast_error h (getErrorMessage reason))
  | TxBroadcastResultOk _ =>
      call (EvDoSetLatestNonce tx) (doSetLatestNonce h tx) ;;;
      call EvRevalidate (revalidate h) ;;;
      call (EvToastSuccess "Transaction submitted!")
        (toast_success h "Transaction submitted!")
  end.

(** The statements that follow the [if (transaction)] block. *)
Definition cleanup : M Event unit :=
  call EvOnClose (onClose h) ;;;
  call EvSetIsIdle (setIsIdle h) ;;;
  call (EvDoChangeScreen (ScreenPaths_HOME h)) (doChangeScreen h (ScreenPaths_HOME h)).

(** The callback returned by [useHandleSubmitTransaction]. *)
Definition handleSubmit : M Event unit :=
  call EvSetIsLoading (setIsLoading h) ;;;
  (match transaction h with
   | Some tx =>
       try_catch (attempt tx)
         (fun _ => call (EvToastError "Something went wrong")
                     (toast_error h "Something went wrong"))
   | None => ret tt
   end) ;;;
  cleanup.

End Handler.

End Submit.

(* ================================================================== *)
(** ** The matching rule and the per-entry rule, stated on their own *)
(* ================================================================== *)

Module Rules.
Import Tx.

(** An account authorizes a request when its app public key for the
    domain is the signer key of the payload and, if the payload names a
    target address, its address under [txVersion] is that address. *)
Definition authorizes (lib : Lib) (publicKey stxAddress : option string)
    (txVersion : Z) (appDomain : string) (account : Account) : Prop :=
  Some (getPublicKeyFromPrivate lib (getAppPrivateKey lib account appDomain)) = publicKey
  /\ (truthy_str stxAddress = true ->
      Some (getAddressFromPrivateKey lib (stxPrivateKey account) txVersion) = stxAddress).

(** What normalization makes of one post-condition entry. *)
Inductive normalized (lib : Lib) : PostConditionEntry -> PostCondition -> Prop :=
| norm_hex hex pc :
    deserializePostCondition lib {| rd_buffer := from_hex hex; rd_offset := 0 |} = Ok pc ->
    normalized lib (PcHex hex) pc
| norm_amount fields v a :
    lookup "amount" fields = Some v ->
    truthy v = true ->
    new_BN lib v (Some 16%Z) = Ok a ->
    normalized lib (PcObj fields) (spread_set fields "amount" (JsBN a))
| norm_falsy_amount fields v :
    lookup "amount" fields = Some v ->
    truthy v = false ->
    normalized lib (PcObj fields) fields
| norm_no_amount fields :
    lookup "amount" fields = None ->
    normalized lib (PcObj fields) fields.

(** The network carried by a construction call, for the events that are one. *)
Definition construction_network (e : Event) : option (option StacksNetwork) :=
  match e with
  | EvMakeContractCall opts => Some (cc_network opts)
  | EvMakeContractDeploy opts => Some (cd_network opts)
  | EvMakeSTXTokenTransfer opts => Some (tt_network opts)
  | _ => None
  end.

Definition is_contract_call (e : Event) : bool :=
  match e with EvMakeContractCall _ => true | _ => false end.
Definition is_contract_deploy (e : Event) : bool :=
  match e with EvMakeContractDeploy _ => true | _ => false end.
Definition is_token_transfer (e : Event) : bool :=
  match e with EvMakeSTXTokenTransfer _ => true | _ => false end.

(** The events of signature verification. *)
Definition is_signature_check (e : Event) : bool :=
  match e with
  | EvNewTokenVerifier _ _ | EvVerifyAsync _ => true
  | _ => false
  end.

(** The version an address derivation was asked for. *)
Definition derivation_version (e : Event) : option Z :=
  match e with
  | EvGetAddressFromPrivateKey _ v => Some v
  | _ => None
  end.

(** The decision the scan callback takes for an account. *)
Definition account_ok (lib : Lib) (publicKey stxAddress : option string)
    (txVersion : Z) (appDomain : string) (account : Account) : bool :=
  negb (key_differs (getPublicKeyFromPrivate lib (getAppPrivateKey lib account appDomain))
          publicKey)
  && (negb (truthy_str stxAddress)
      || negb (key_differs (getAddressFromPrivateKey lib (stxPrivateKey account) txVersion)
                 stxAddress)).

(** The outcome of [verifyTxRequest] without its trace. *)
Definition verify_outcome (lib : Lib) (requestToken : string) (wallet : Wallet)
    (appDomain : string) : Result TransactionPayload :=
  tx <~ decodeToken lib requestToken ;;
  txVersion <~ getTransactionVersionFromRequest lib tx ;;
  verifier <~ new_TokenVerifier lib "ES256k" (publicKey tx) ;;
  isSigned <~ verifyAsync lib verifier requestToken ;;
  if negb isSigned then Throw "Transaction request is not signed"
  else match List.find (account_ok lib (publicKey tx) (stxAddress tx) txVersion appDomain)
               (accounts wallet) with
       | None => Throw UNAUTHORIZED_TX_REQUEST
       | Some _ => Ok tx
       end.

(** A string between double quotes. *)
Definition quoted (s : string) : string :=
  String dquote (s ++ dquote_str).

End Rules.

(* ================================================================== *)
(** ** Concrete libraries, wallets and payloads *)
(* ================================================================== *)

Module Sample.
Import Tx.

Definition mainnet : StacksNetwork :=
  {| version := 0;
     coreApiUrl := "https://stacks-node-api.mainnet.stacks.co";
     getTransferFeeEstimateApiUrl :=
       Some "https://stacks-node-api.mainnet.stacks.co/v2/fees/transfer" |}.

Definition testnet : StacksNetwork :=
  {| version := 128;
     coreApiUrl := "https://stacks-node-api.testnet.stacks.co";
     getTransferFeeEstimateApiUrl :=
       Some "https://stacks-node-api.testnet.stacks.co/v2/fees/transfer" |}.

(** Digits of a string in a base up to 16; any other character throws. *)
Fixpoint parse_digits (base : Z) (acc : Z) (s : string) : Result Z :=
  match s with
  | EmptyString => Ok acc
  | String c rest =>
      match hex_value c with
      | Some d =>
          if (Z.of_N d <? base)%Z then parse_digits base (acc * base + Z.of_N d) rest
          else Throw "Invalid character"
      | None => Throw "Invalid character"
      end
  end.

Definition bn (v : JsVal) (base : option Z) : Result BN :=
  match v with
  | JsNum z | JsBN z => Ok z
  | JsStr s => parse_digits (match base with Some b => b | None => 10%Z end) 0 s
  | _ => Throw "Assertion failed"
  end.

Definition signed_tx : StacksTransaction :=
  {| serialize := [x00; x00; x00; x00; x01; x04; xab; xcd] |}.

(** A library whose node answers [res], whose token decoder yields
    [payload] and whose verifier answers [isSigned].  Numbers print as
    their decimal digits, which is what the runtime does below 10^21; no
    example holds a larger number. *)
Definition lib (res : Result Response) (payload : Result TransactionPayload)
    (isSigned : Result bool) : Lib :=
  {| deserializeCV := fun b => Ok (JsStr (toString_hex b));
     deserializePostCondition := fun r =>
       match rd_buffer r with
       | [] => Throw "Could not read post condition"
       | _ => Ok [("serialized", JsStr (toString_hex (rd_buffer r)));
                  ("offset", JsNum (Z.of_nat (rd_offset r)))]
       end;
     makeContractCall := fun _ => Ok signed_tx;
     makeContractDeploy := fun _ => Ok signed_tx;
     makeSTXTokenTransfer := fun _ => Ok signed_tx;
     getAddressFromPrivateKey := fun k v =>
       ((if Z.eqb v 0 then "SP" else "ST") ++ k)%string;
     TransactionVersion_Mainnet := 0;
     TransactionVersion_Testnet := 128;
     new_BN := bn;
     new_StacksMainnet := mainnet;
     new_StacksTestnet := testnet;
     TransactionTypes_ContractCall := "contract_call";
     TransactionTypes_ContractDeploy := "smart_contract";
     TransactionTypes_STXTransfer := "token_transfer";
     broadcastTX := fun _ _ => res;
     decodeToken := fun _ => payload;
     new_TokenVerifier := fun alg key =>
       match key with
       | Some _ => Ok {| tv_algorithm := alg; tv_publicKey := key |}
       | None => Throw "a signing algorithm and public key are required"
       end;
     verifyAsync := fun _ _ => isSigned;
     getAppPrivateKey := fun account appDomain =>
       (appsKey account ++ "@" ++ appDomain)%string;
     getPublicKeyFromPrivate := fun k => ("pub:" ++ k)%string;
     Number_toString := string_of_Z |}.

Definition alice : Account := {| stxPrivateKey := "k-alice"; appsKey := "apps-alice" |}.
Definition bob : Account := {| stxPrivateKey := "k-bob"; appsKey := "apps-bob" |}.
Definition wallet : Wallet := {| accounts := [alice; bob] |}.
Definition empty_wallet : Wallet := {| accounts := [] |}.
Definition domain : string := "https://app.example".

(** A token-transfer payload signed with Bob's app key for [domain]. *)
Definition payload (net : option StacksNetwork) (target : option string)
  : TransactionPayload :=
  {| txType := "token_transfer";
     network := net;
     publicKey := Some "pub:apps-bob@https://app.example";
     stxAddress := target;
     postConditionMode := None;
     postConditions := None;
     contractAddress := EmptyString;
     contractName := EmptyString;
     functionName := EmptyString;
     functionArgs := [];
     codeBody := EmptyString;
     recipient := "SP2J6ZY48GV1EZ5V2V5RB9MP66SW86PYKKNRV9EJ7";
     memo := None;
     amount := "1000" |}.

Definition with_type (tag : string) (p : TransactionPayload) : TransactionPayload :=
  {| txType := tag;
     network := network p;
     publicKey := publicKey p;
     stxAddress := stxAddress p;
     postConditionMode := postConditionMode p;
     postConditions := postConditions p;
     contractAddress := contractAddress p;
     contractName := contractName p;
     functionName := functionName p;
     functionArgs := functionArgs p;
     codeBody := codeBody p;
     recipient := recipient p;
     memo := memo p;
     amount := amount p |}.

(** A network descriptor as an app sends it: a version tag and a URL. *)
Definition bare (v : Z) : StacksNetwork :=
  {| version := v; coreApiUrl := "http://localhost:3999";
     getTransferFeeEstimateApiUrl := None |}.

Definition accepted (txid : string) : Result Response :=
  Ok {| ok := true; json := Ok (JsStr txid) |}.

Definition rejected : Result Response :=
  Ok {| ok := false;
        json := Ok (JsObj [("error", JsStr "transaction rejected");
                           ("reason", JsStr "BadNonce")]) |}.

Definition unreachable : Result Response := Throw "Failed to fetch".

(** A library for verification only. *)
Definition verifier_lib (p : TransactionPayload) : Lib :=
  lib unreachable (Ok p) (Ok true).

(** Requests signed with Bob's app key: one that names Bob's testnet
    address, one with an unknown network version, one with no network. *)
Definition request_bob : TransactionPayload :=
  payload (Some (bare 128)) (Some "STk-bob").
Definition request_v5 : TransactionPayload := payload (Some (bare 5)) None.
Definition request_no_network : TransactionPayload := payload None (Some "SPk-bob").
Definition wallet_without_bob : Wallet := {| accounts := [alice] |}.

(** Post-condition entries: a zero numeric amount, a hex amount, a
    serialized post-condition, an object without amount. *)
Definition zero_amount : list (string * JsVal) :=
  [("type", JsNum 0); ("amount", JsNum 0)].
Definition hex_amount : list (string * JsVal) :=
  [("type", JsNum 1); ("amount", JsStr "ff"); ("conditionCode", JsNum 3)].
Definition no_amount : list (string * JsVal) := [("type", JsNum 2)].

(** A library for construction and broadcast only. *)
Definition node_lib (res : Result Response) : Lib :=
  lib res (Throw "not a token") (Ok false).

Definition hooks (tx : option StacksTransaction)
    (res : Result Submit.TxBroadcastResult) : Submit.Hooks :=
  {| Submit.transaction := tx;
     Submit.onClose := Ok tt;
     Submit.stacksNetwork := testnet;
     Submit.setIsLoading := Ok tt;
     Submit.setIsIdle := Ok tt;
     Submit.doChangeScreen := fun _ => Ok tt;
     Submit.doSetLatestNonce := fun _ => Throw "nonce store unavailable";
     Submit.revalidate := Ok tt;
     Submit.broadcastTransaction := fun _ _ => res;
     Submit.toast_error := fun _ => Ok tt;
     Submit.toast_success := fun _ => Ok tt;
     Submit.ScreenPaths_HOME := "/" |}.

End Sample.

(* ================================================================== *)
(** ** Observations on traces and payloads *)
(* ================================================================== *)

Module Obs.
Import Tx.

(** The calls that derive keys or addresses from an account. *)
Definition is_key_derivation (e : Event) : bool :=
  match e with
  | EvGetAppPrivateKey _ _ | EvGetPublicKeyFromPrivate _
  | EvGetAddressFromPrivateKey _ _ => true
  | _ => false
  end.

Definition is_broadcast (e : Event) : bool :=
  match e with EvBroadcastTX _ _ => true | _ => false end.

(** The nonce carried by a construction call. *)
Definition construction_nonce (e : Event) : option (option BN) :=
  match e with
  | EvMakeContractCall opts => Some (cc_nonce opts)
  | EvMakeContractDeploy opts => Some (cd_nonce opts)
  | EvMakeSTXTokenTransfer opts => Some (tt_nonce opts)
  | _ => None
  end.

(** The sender key carried by a construction call. *)
Definition construction_senderKey (e : Event) : option string :=
  match e with
  | EvMakeContractCall opts => Some (cc_senderKey opts)
  | EvMakeContractDeploy opts => Some (cd_senderKey opts)
  | EvMakeSTXTokenTransfer opts => Some (tt_senderKey opts)
  | _ => None
  end.

(** What the constructor named by a construction call answers. *)
Definition construction_result (lib : Lib) (e : Event)
  : option (Result StacksTransaction) :=
  match e with
  | EvMakeContractCall opts => Some (makeContractCall lib opts)
  | EvMakeContractDeploy opts => Some (makeContractDeploy lib opts)
  | EvMakeSTXTokenTransfer opts => Some (makeSTXTokenTransfer lib opts)
  | _ => None
  end.

(** The payload with other post-conditions and post-condition mode. *)
Definition with_postConditions (p : TransactionPayload) (mode : option Z)
    (pcs : option (list PostConditionEntry)) : TransactionPayload :=
  {| txType := txType p;
     network := network p;
     publicKey := publicKey p;
     stxAddress := stxAddress p;
     postConditionMode := mode;
     postConditions := pcs;
     contractAddress := contractAddress p;
     contractName := contractName p;
     functionName := functionName p;
     functionArgs := functionArgs p;
     codeBody := codeBody p;
     recipient := recipient p;
     memo := memo p;
     amount := amount p |}.

(** The app public key of an account for a domain. *)
Definition appPublicKey (lib : Lib) (appDomain : string) (account : Account) : string :=
  getPublicKeyFromPrivate lib (getAppPrivateKey lib account appDomain).

(** No double quote occurs in the string. *)
Fixpoint quote_free (s : string) : bool :=
  match s with
  | EmptyString => true
  | String c rest => negb (Ascii.eqb dquote c) && quote_free rest
  end.

Definition is_submit_broadcast (e : Submit.Event) : bool :=
  match e with Submit.EvBroadcastTransaction _ _ => true | _ => false end.

Definition is_toast (e : Submit.Event) : bool :=
  match e with
  | Submit.EvToastError _ | Submit.EvToastSuccess _ => true
  | _ => false
  end.

(** The bookkeeping that follows an accepted broadcast. *)
Definition is_bookkeeping (e : Submit.Event) : bool :=
  match e with
  | Submit.EvDoSetLatestNonce _ | Submit.EvRevalidate | Submit.EvToastSuccess _ => true
  | _ => false
  end.

(** The three closing calls of the handler. *)
Definition is_cleanup (e : Submit.Event) : bool :=
  match e with
  | Submit.EvOnClose | Submit.EvSetIsIdle | Submit.EvDoChangeScreen _ => true
  | _ => false
  end.

(** The guarded block of the handler: the [if (transaction)] statement
    with its [try] and [catch]. *)
Definition guarded (h : Submit.Hooks) : M Submit.Event unit :=
  match Submit.transaction h with
  | Some tx =>
      try_catch (Submit.attempt h tx)
        (fun _ => call (Submit.EvToastError "Something went wrong")
                    (Submit.toast_error h "Something went wrong"))
  | None => ret tt
  end.

(** Concrete data for the examples that follow. *)

Definition carol : Account := {| stxPrivateKey := "k-carol"; appsKey := "apps-carol" |}.

Definition call_payload : TransactionPayload :=
  {| txType := "contract_call";
     network := Some (Sample.bare 128);
     publicKey := Some "pub:apps-bob@https://app.example";
     stxAddress := None;
     postConditionMode := Some 1%Z;
     postConditions := Some [PcHex "0001ab"; PcObj Sample.hex_amount];
     contractAddress := "ST1PQHQKV0RJXZFY1DGX8MNSNYVE3VGZJSRTPGZGM";
     contractName := "counter";
     functionName := "increment";
     functionArgs := ["0100"; "0c00"];
     codeBody := EmptyString;
     recipient := EmptyString;
     memo := None;
     amount := EmptyString |}.

(** A payload that names no signer key. *)
Definition keyless_payload : TransactionPayload :=
  {| txType := "token_transfer";
     network := None;
     publicKey := None;
     stxAddress := None;
     postConditionMode := None;
     postConditions := None;
     contractAddress := EmptyString;
     contractName := EmptyString;
     functionName := EmptyString;
     functionArgs := [];
     codeBody := EmptyString;
     recipient := "SP2J6ZY48GV1EZ5V2V5RB9MP66SW86PYKKNRV9EJ7";
     memo := None;
     amount := "1" |}.

(** A contract call whose second argument is not hexadecimal. *)
Definition bad_args_payload : TransactionPayload :=
  {| txType := "contract_call";
     network := None;
     publicKey := None;
     stxAddress := None;
     postConditionMode := None;
     postConditions := None;
     contractAddress := "ST1PQHQKV0RJXZFY1DGX8MNSNYVE3VGZJSRTPGZGM";
     contractName := "counter";
     functionName := "increment";
     functionArgs := ["0100"; "zz"];
     codeBody := EmptyString;
     recipient := EmptyString;
     memo := None;
     amount := EmptyString |}.

(** A library whose Clarity decoder refuses an empty buffer. *)
Definition strict_lib : Lib :=
  {| deserializeCV := fun b =>
       match b with
       | [] => Throw "Could not read clarity value"
       | _ => Ok (JsStr (toString_hex b))
       end;
     deserializePostCondition := deserializePostCondition (Sample.node_lib Sample.rejected);
     makeContractCall := makeContractCall (Sample.node_lib Sample.rejected);
     makeContractDeploy := makeContractDeploy (Sample.node_lib Sample.rejected);
     makeSTXTokenTransfer := makeSTXTokenTransfer (Sample.node_lib Sample.rejected);
     getAddressFromPrivateKey := getAddressFromPrivateKey (Sample.node_lib Sample.rejected);
     TransactionVersion_Mainnet := 0;
     TransactionVersion_Testnet := 128;
     new_BN := Sample.bn;
     new_StacksMainnet := Sample.mainnet;
     new_StacksTestnet := Sample.testnet;
     TransactionTypes_ContractCall := "contract_call";
     TransactionTypes_ContractDeploy := "smart_contract";
     TransactionTypes_STXTransfer := "token_transfer";
     broadcastTX := broadcastTX (Sample.node_lib Sample.rejected);
     decodeToken := decodeToken (Sample.node_lib Sample.rejected);
     new_TokenVerifier := new_TokenVerifier (Sample.node_lib Sample.rejected);
     verifyAsync := verifyAsync (Sample.node_lib Sample.rejected);
     getAppPrivateKey := getAppPrivateKey (Sample.node_lib Sample.rejected);
     getPublicKeyFromPrivate := getPublicKeyFromPrivate (Sample.node_lib Sample.rejected);
     Number_toString := Number_toString (Sample.node_lib Sample.rejected) |}.

(** A node that rejects with no error body. *)
Definition rejected_bare : Result Response :=
  Ok {| ok := false; json := Ok (JsObj [("message", JsStr "bad request")]) |}.

(** Hooks whose close callback throws. *)
Definition hooks_close_throws : Submit.Hooks :=
  {| Submit.transaction := None;
     Submit.onClose := Throw "drawer already closed";
     Submit.stacksNetwork := Sample.testnet;
     Submit.setIsLoading := Ok tt;
     Submit.setIsIdle := Ok tt;
     Submit.doChangeScreen := fun _ => Ok tt;
     Submit.doSetLatestNonce := fun _ => Ok tt;
     Submit.revalidate := Ok tt;
     Submit.broadcastTransaction := fun _ _ => Ok (Submit.TxBroadcastResultOk "abc123");
     Submit.toast_error := fun _ => Ok tt;
     Submit.toast_success := fun _ => Ok tt;
     Submit.ScreenPaths_HOME := "/" |}.

(** Hooks whose broadcast throws and whose error toast throws too. *)
Definition hooks_toast_throws : Submit.Hooks :=
  {| Submit.transaction := Some Sample.signed_tx;
     Submit.onClose := Ok tt;
     Submit.stacksNetwork := Sample.testnet;
     Submit.setIsLoading := Ok tt;
     Submit.setIsIdle := Ok tt;
     Submit.doChangeScreen := fun _ => Ok tt;
     Submit.doSetLatestNonce := fun _ => Ok tt;
     Submit.revalidate := Ok tt;
     Submit.broadcastTransaction := fun _ _ => Throw "Failed to fetch";
     Submit.toast_error := fun _ => Throw "toaster is not mounted";
     Submit.toast_success := fun _ => Ok tt;
     Submit.ScreenPaths_HOME := "/" |}.

(** Hooks whose bookkeeping succeeds. *)
Definition hooks_ok (res : Result Submit.TxBroadcastResult) : Submit.Hooks :=
  {| Submit.transaction := Some Sample.signed_tx;
     Submit.onClose := Ok tt;
     Submit.stacksNetwork := Sample.testnet;
     Submit.setIsLoading := Ok tt;
     Submit.setIsIdle := Ok tt;
     Submit.doChangeScreen := fun _ => Ok tt;
     Submit.doSetLatestNonce := fun _ => Ok tt;
     Submit.revalidate := Ok tt;
     Submit.broadcastTransaction := fun _ _ => res;
     Submit.toast_error := fun _ => Ok tt;
     Submit.toast_success := fun _ => Ok tt;
     Submit.ScreenPaths_HOME := "/" |}.

End Obs.

(* ================================================================== *)
(** ** Facts about traced computations *)
(* ================================================================== *)

Module EffFacts.

Lemma outcome_bind {E A B} (m : M E A) (f : A -> M E B) :
  outcome (Eff.bind m f) =
  match outcome m with
  | Ok a => outcome (f a)
  | Throw msg => Throw msg
  end.
Proof.
  destruct m as [t [a | msg]]; simpl; [destruct (f a) | ]; reflexivity.
Qed.

Lemma trace_bind {E A B} (m : M E A) (f : A -> M E B) :
  trace (Eff.bind m f) =
  trace m ++ match outcome m with
             | Ok a => trace (f a)
             | Throw _ => []
             end.
Proof.
  destruct m as [t [a | msg]]; simpl; [destruct (f a) | rewrite app_nil_r]; reflexivity.
Qed.

Lemma bind_call_Ok {E A B} (e : E) (a : A) (f : A -> M E B) :
  Eff.bind (call e (Ok a)) f = (e :: trace (f a), outcome (f a)).
Proof. unfold call; simpl. destruct (f a); reflexivity. Qed.

Lemma bind_lift_Ok {E A B} (a : A) (f : A -> M E B) :
  Eff.bind (lift (Ok a)) f = f a.
Proof. unfold lift; simpl. destruct (f a); reflexivity. Qed.

Lemma bind_lift {E A B} (r : Result A) (f : A -> M E B) :
  Eff.bind (lift r) f = match r with
                        | Ok a => f a
                        | Throw msg => ([], Throw msg)
                        end.
Proof. destruct r as [a | msg]; [apply bind_lift_Ok | reflexivity]. Qed.

Lemma bind_Throw {E A B} (t : list E) (msg : string) (f : A -> M E B) :
  Eff.bind (t, Throw msg) f = (t, Throw msg).
Proof. reflexivity. Qed.

(** [t <- m ;; ret (g t)] followed by a match that undoes [g]. *)
Lemma bind_ret_Some {E A} (m : M E A) (k : string) :
  Eff.bind (Eff.bind m (fun t => ret (Some t)))
    (fun o => match o with None => throw k | Some t => ret t end) = m.
Proof.
  destruct m as [t [a | msg]]; simpl; [rewrite !app_nil_r | ]; reflexivity.
Qed.

(** A scan whose callback never throws decides like [List.find]. *)
Lemma find_outcome {E A} (p : A -> M E bool) (q : A -> bool) (xs : list A) :
  (forall x, outcome (p x) = Ok (q x)) ->
  outcome (Eff.find p xs) = Ok (List.find q xs).
Proof.
  intros Hp. induction xs as [| x rest IH]; simpl.
  - reflexivity.
  - rewrite outcome_bind, Hp. destruct (q x); [reflexivity | exact IH].
Qed.

(** Every event of a scan comes from a callback run on an element. *)
Lemma find_trace_Forall {E A} (P : E -> Prop) (p : A -> M E bool) (xs : list A) :
  (forall x, In x xs -> Forall P (trace (p x))) ->
  Forall P (trace (Eff.find p xs)).
Proof.
  induction xs as [| x rest IH]; intros Hp; simpl.
  - constructor.
  - rewrite trace_bind. apply Forall_app. split.
    + apply Hp. left. reflexivity.
    + destruct (outcome (p x)) as [[|] | msg]; simpl; try constructor.
      apply IH. intros y Hy. apply Hp. right. exact Hy.
Qed.

End EffFacts.

(* ================================================================== *)
(** ** Request verification *)
(* ================================================================== *)

Module VerifyFacts.
Import Tx Rules EffFacts.

Lemma key_differs_false (a : string) (o : option string) :
  key_differs a o = false <-> Some a = o.
Proof.
  destruct o as [k |]; simpl.
  - rewrite negb_false_iff, String.eqb_eq. split; congruence.
  - split; discriminate.
Qed.

Lemma account_ok_authorizes lib publicKey stxAddress txVersion appDomain account :
  account_ok lib publicKey stxAddress txVersion appDomain account = true <->
  authorizes lib publicKey stxAddress txVersion appDomain account.
Proof.
  unfold account_ok, authorizes.
  rewrite andb_true_iff, orb_true_iff, !negb_true_iff, !key_differs_false.
  split; intros [Hk Ha]; split; try exact Hk.
  - intros Ht. destruct Ha as [Ha | Ha]; [congruence | exact Ha].
  - destruct (truthy_str stxAddress); [right; apply Ha; reflexivity | left; reflexivity].
Qed.

Lemma accountMatches_outcome lib publicKey stxAddress txVersion appDomain account :
  outcome (accountMatches lib publicKey stxAddress txVersion appDomain account) =
  Ok (account_ok lib publicKey stxAddress txVersion appDomain account).
Proof.
  unfold accountMatches, account_ok.
  rewrite !bind_call_Ok. cbn [outcome snd].
  destruct (key_differs _ publicKey); [reflexivity |].
  destruct (truthy_str stxAddress); cbn [negb andb orb]; [| reflexivity].
  rewrite ?bind_call_Ok. cbn [outcome snd].
  destruct (key_differs _ stxAddress); reflexivity.
Qed.

Lemma verifyTxRequest_outcome lib requestToken wallet appDomain :
  outcome (verifyTxRequest lib requestToken wallet appDomain) =
  verify_outcome lib requestToken wallet appDomain.
Proof.
  unfold verifyTxRequest, verify_outcome.
  rewrite outcome_bind. unfold call at 1. cbn [outcome snd].
  destruct (decodeToken lib requestToken) as [tx | msg]; cbn [rbind]; [| reflexivity].
  rewrite outcome_bind. unfold lift at 1. cbn [outcome snd].
  destruct (getTransactionVersionFromRequest lib tx) as [v | msg]; cbn [rbind]; [| reflexivity].
  rewrite outcome_bind. unfold call at 1. cbn [outcome snd].
  destruct (new_TokenVerifier lib "ES256k" (publicKey tx)) as [vf | msg];
    cbn [rbind]; [| reflexivity].
  rewrite outcome_bind. unfold call at 1. cbn [outcome snd].
  destruct (verifyAsync lib vf requestToken) as [[|] | msg]; cbn [rbind negb];
    try reflexivity.
  rewrite outcome_bind.
  rewrite (find_outcome _ (account_ok lib (publicKey tx) (stxAddress tx) v appDomain)).
  - destruct (List.find _ (accounts wallet)); reflexivity.
  - intros x. apply accountMatches_outcome.
Qed.

Lemma truthy_str_Some (s : string) :
  s <> EmptyString -> truthy_str (Some s) = true.
Proof.
  intros Hs. simpl. apply negb_true_iff, String.eqb_neq. exact Hs.
Qed.

(** A successful verification found an account that authorizes the
    request under the resolved version. *)
Lemma verify_outcome_Ok lib requestToken wallet appDomain v :
  verify_outcome lib requestToken wallet appDomain = Ok v ->
  exists account txVersion,
    decodeToken lib requestToken = Ok v /\
    getTransactionVersionFromRequest lib v = Ok txVersion /\
    In account (accounts wallet) /\
    authorizes lib (publicKey v) (stxAddress v) txVersion appDomain account.
Proof.
  unfold verify_outcome.
  destruct (decodeToken lib requestToken) as [tx | msg]; cbn [rbind]; [| discriminate].
  destruct (getTransactionVersionFromRequest lib tx) as [txVersion | msg] eqn:Hv;
    cbn [rbind]; [| discriminate].
  destruct (new_TokenVerifier lib "ES256k" (publicKey tx)) as [vf | msg];
    cbn [rbind]; [| discriminate].
  destruct (verifyAsync lib vf requestToken) as [[|] | msg]; cbn [rbind negb];
    try discriminate.
  destruct (List.find _ (accounts wallet)) as [account |] eqn:Hfind; [| discriminate].
  intros Hok. injection Hok as <-.
  apply find_some in Hfind. destruct Hfind as [Hin Hacc].
  exists account, txVersion. repeat split; try assumption;
    apply account_ok_authorizes in Hacc; apply Hacc.
Qed.

(** The address derivations of a scan ask for the version it was given. *)
Lemma accountMatches_derivations lib publicKey stxAddress txVersion appDomain account :
  Forall (fun e => forall v, derivation_version e = Some v -> v = txVersion)
    (trace (accountMatches lib publicKey stxAddress txVersion appDomain account)).
Proof.
  unfold accountMatches. rewrite !bind_call_Ok. cbn [trace fst].
  constructor; [intros v; discriminate |].
  constructor; [intros v; discriminate |].
  destruct (key_differs _ publicKey); [constructor |].
  destruct (negb (truthy_str stxAddress)); [constructor |].
  rewrite ?bind_call_Ok. cbn [trace fst].
  constructor.
  - intros v Hv. simpl in Hv. congruence.
  - destruct (key_differs _ stxAddress); constructor.
Qed.

(** [C1] When the payload of a request token declares a target address
    (a non-empty [stxAddress]), [verifyTxRequest] succeeds only through an
    account of the wallet whose app public key is the signer key and
    whose address, derived under the resolved network version, is the
    declared target.  An account whose app public key matches but whose
    derived address differs is skipped by the scan, and a wallet in which
    every account's address differs from the target does not authorize
    the request. *)
Theorem verify_target_address_gate lib requestToken wallet appDomain tx target :
  decodeToken lib requestToken = Ok tx ->
  stxAddress tx = Some target ->
  target <> EmptyString ->
  (forall v, outcome (verifyTxRequest lib requestToken wallet appDomain) = Ok v ->
     v = tx /\
     exists account txVersion,
       In account (accounts wallet) /\
       getTransactionVersionFromRequest lib tx = Ok txVersion /\
       Some (getPublicKeyFromPrivate lib (getAppPrivateKey lib account appDomain))
         = publicKey tx /\
       getAddressFromPrivateKey lib (stxPrivateKey account) txVersion = target)
  /\ (forall account txVersion,
        Some (getPublicKeyFromPrivate lib (getAppPrivateKey lib account appDomain))
          = publicKey tx ->
        getAddressFromPrivateKey lib (stxPrivateKey account) txVersion <> target ->
        outcome (accountMatches lib (publicKey tx) (stxAddress tx) txVersion
                   appDomain account) = Ok false)
  /\ (forall txVersion,
        getTransactionVersionFromRequest lib tx = Ok txVersion ->
        (forall account, In account (accounts wallet) ->
           getAddressFromPrivateKey lib (stxPrivateKey account) txVersion <> target) ->
        exists msg, outcome (verifyTxRequest lib requestToken wallet appDomain) = Throw msg).
Proof.
  intros Hdec Hstx Hne.
  assert (Hgate : forall v, outcome (verifyTxRequest lib requestToken wallet appDomain) = Ok v ->
     v = tx /\
     exists account txVersion,
       In account (accounts wallet) /\
       getTransactionVersionFromRequest lib tx = Ok txVersion /\
       Some (getPublicKeyFromPrivate lib (getAppPrivateKey lib account appDomain))
         = publicKey tx /\
       getAddressFromPrivateKey lib (stxPrivateKey account) txVersion = target).
  { intros v Hok. rewrite verifyTxRequest_outcome in Hok.
    apply verify_outcome_Ok in Hok.
    destruct Hok as (account & txVersion & Hd & Hv & Hin & Hkey & Haddr).
    assert (v = tx) as -> by congruence.
    split; [reflexivity |].
    exists account, txVersion. repeat split; try assumption.
    rewrite Hstx in Haddr. specialize (Haddr (truthy_str_Some _ Hne)). congruence. }
  split; [exact Hgate | split].
  - intros account txVersion Hkey Haddr.
    rewrite accountMatches_outcome. f_equal.
    destruct (account_ok lib (publicKey tx) (stxAddress tx) txVersion appDomain account)
      eqn:Hacc; [| reflexivity].
    apply account_ok_authorizes in Hacc. destruct Hacc as [_ Ha].
    rewrite Hstx in Ha. specialize (Ha (truthy_str_Some _ Hne)). congruence.
  - intros txVersion Hv Hall.
    destruct (outcome (verifyTxRequest lib requestToken wallet appDomain)) as [v | msg] eqn:Hout.
    + exfalso. destruct (Hgate v eq_refl) as (_ & account & txVersion' & Hin & Hv' & _ & Haddr).
      assert (txVersion' = txVersion) as -> by congruence.
      exact (Hall account Hin Haddr).
    + exists msg. reflexivity.
Qed.

(** [C2] When the token decodes, its network version resolves (the
    network descriptor is absent or carries the Mainnet or Testnet
    version), its signature verifies and no account of the wallet
    satisfies the matching rule, [verifyTxRequest] throws the error whose
    message is the fixed string of [UNAUTHORIZED_TX_REQUEST]. *)
Theorem unauthorized_when_no_account_matches
    lib requestToken wallet appDomain tx txVersion verifier :
  decodeToken lib requestToken = Ok tx ->
  getTransactionVersionFromRequest lib tx = Ok txVersion ->
  new_TokenVerifier lib "ES256k" (publicKey tx) = Ok verifier ->
  verifyAsync lib verifier requestToken = Ok true ->
  (forall account, In account (accounts wallet) ->
     ~ authorizes lib (publicKey tx) (stxAddress tx) txVersion appDomain account) ->
  outcome (verifyTxRequest lib requestToken wallet appDomain)
    = Throw "The transaction request provided is not signed by this wallet."
  /\ UNAUTHORIZED_TX_REQUEST
    = "The transaction request provided is not signed by this wallet.".
Proof.
  intros Hdec Hv Hnew Hsig Hnone. split; [| reflexivity].
  rewrite verifyTxRequest_outcome. unfold verify_outcome.
  rewrite Hdec. cbn [rbind]. rewrite Hv. cbn [rbind]. rewrite Hnew. cbn [rbind].
  rewrite Hsig. cbn [rbind negb].
  destruct (List.find _ (accounts wallet)) as [account |] eqn:Hfind; [| reflexivity].
  apply find_some in Hfind. destruct Hfind as [Hin Hacc].
  apply account_ok_authorizes in Hacc. destruct (Hnone account Hin Hacc).
Qed.

(** [C3] When the payload of a request token carries a network descriptor
    whose version is neither the Mainnet nor the Testnet tag,
    [verifyTxRequest] throws "Invalid network version provided" having
    only decoded the token: no signature verification is attempted. *)
Theorem invalid_network_version_fails_first lib requestToken wallet appDomain tx net :
  decodeToken lib requestToken = Ok tx ->
  network tx = Some net ->
  version net <> TransactionVersion_Mainnet lib ->
  version net <> TransactionVersion_Testnet lib ->
  verifyTxRequest lib requestToken wallet appDomain
    = ([EvDecodeToken requestToken], Throw "Invalid network version provided")
  /\ Forall (fun e => is_signature_check e = false)
       (trace (verifyTxRequest lib requestToken wallet appDomain)).
Proof.
  intros Hdec Hnet Hm Ht.
  assert (Hrun : verifyTxRequest lib requestToken wallet appDomain
                 = ([EvDecodeToken requestToken], Throw "Invalid network version provided")).
  { unfold verifyTxRequest. rewrite Hdec, bind_call_Ok.
    unfold getTransactionVersionFromRequest, known_version. rewrite Hnet.
    cbn [existsb].
    apply Z.eqb_neq in Hm, Ht. rewrite Hm, Ht. cbn [orb negb].
    reflexivity. }
  split; [exact Hrun |].
  rewrite Hrun. cbn [trace fst]. constructor; [reflexivity | constructor].
Qed.

Lemma verify_target_address_gate_witness :
  decodeToken (Sample.verifier_lib Sample.request_bob) "token" = Ok Sample.request_bob
  /\ stxAddress Sample.request_bob = Some "STk-bob"
  /\ "STk-bob" <> EmptyString
  /\ (forall v,
        outcome (verifyTxRequest (Sample.verifier_lib Sample.request_bob) "token"
                   Sample.wallet Sample.domain) = Ok v ->
        v = Sample.request_bob /\
        exists account txVersion,
          In account (accounts Sample.wallet) /\
          getTransactionVersionFromRequest (Sample.verifier_lib Sample.request_bob)
            Sample.request_bob = Ok txVersion /\
          Some (getPublicKeyFromPrivate (Sample.verifier_lib Sample.request_bob)
                  (getAppPrivateKey (Sample.verifier_lib Sample.request_bob)
                     account Sample.domain))
            = publicKey Sample.request_bob /\
          getAddressFromPrivateKey (Sample.verifier_lib Sample.request_bob)
            (stxPrivateKey account) txVersion = "STk-bob").
Proof.
  split; [reflexivity | split; [reflexivity | split; [discriminate |] ] ].
  apply (verify_target_address_gate (Sample.verifier_lib Sample.request_bob) "token"
           Sample.wallet Sample.domain Sample.request_bob "STk-bob").
  - reflexivity.
  - reflexivity.
  - discriminate.
Defined.

(** The request that names Bob's address is authorized by Bob's account,
    and is refused when it names an address no account has. *)
Example verify_request_bob :
  outcome (verifyTxRequest (Sample.verifier_lib Sample.request_bob) "token"
             Sample.wallet Sample.domain) = Ok Sample.request_bob
  /\ outcome (verifyTxRequest
                (Sample.verifier_lib (Sample.payload (Some (Sample.bare 128)) (Some "SPk-bob")))
                "token" Sample.wallet Sample.domain)
     = Throw UNAUTHORIZED_TX_REQUEST.
Proof. split; reflexivity. Qed.

(** An [stxAddress] that is the empty string is not a declared target:
    the scan accepts on the app key alone. *)
Example verify_empty_target :
  outcome (verifyTxRequest
             (Sample.verifier_lib (Sample.payload None (Some EmptyString)))
             "token" Sample.wallet Sample.domain)
  = Ok (Sample.payload None (Some EmptyString)).
Proof. reflexivity. Qed.

Lemma unauthorized_when_no_account_matches_witness :
  decodeToken (Sample.verifier_lib Sample.request_bob) "token" = Ok Sample.request_bob
  /\ getTransactionVersionFromRequest (Sample.verifier_lib Sample.request_bob)
       Sample.request_bob = Ok 128%Z
  /\ outcome (verifyTxRequest (Sample.verifier_lib Sample.request_bob) "token"
                Sample.wallet_without_bob Sample.domain)
     = Throw "The transaction request provided is not signed by this wallet.".
Proof.
  split; [reflexivity | split; [reflexivity |] ].
  refine (proj1 (unauthorized_when_no_account_matches
                   (Sample.verifier_lib Sample.request_bob) "token"
                   Sample.wallet_without_bob Sample.domain Sample.request_bob 128%Z
                   {| tv_algorithm := "ES256k"; tv_publicKey := publicKey Sample.request_bob |}
                   _ _ _ _ _)).
  - reflexivity.
  - reflexivity.
  - reflexivity.
  - reflexivity.
  - intros account [<- | []] [Hkey _]. discriminate Hkey.
Defined.

(** [C2], as stated, fails: a token whose signature verifies and which
    no account of the wallet matches, but whose network descriptor has an
    unknown version, is refused with the network-version message, not
    with the fixed unauthorized message. *)
Lemma unauthorized_message_preempted :
  decodeToken (Sample.verifier_lib Sample.request_v5) "token" = Ok Sample.request_v5
  /\ (exists verifier,
        new_TokenVerifier (Sample.verifier_lib Sample.request_v5) "ES256k"
          (publicKey Sample.request_v5) = Ok verifier
        /\ verifyAsync (Sample.verifier_lib Sample.request_v5) verifier "token" = Ok true)
  /\ (forall account txVersion, In account (accounts Sample.wallet_without_bob) ->
        ~ authorizes (Sample.verifier_lib Sample.request_v5)
            (publicKey Sample.request_v5) (stxAddress Sample.request_v5)
            txVersion Sample.domain account)
  /\ outcome (verifyTxRequest (Sample.verifier_lib Sample.request_v5) "token"
                Sample.wallet_without_bob Sample.domain)
     = Throw "Invalid network version provided"
  /\ outcome (verifyTxRequest (Sample.verifier_lib Sample.request_v5) "token"
                Sample.wallet_without_bob Sample.domain)
     <> Throw UNAUTHORIZED_TX_REQUEST.
Proof.
  split; [reflexivity |]. split.
  - eexists. split; reflexivity.
  - split.
    + intros account txVersion [<- | []] [Hkey _]. discriminate Hkey.
    + split; [reflexivity | discriminate].
Qed.

Lemma invalid_network_version_fails_first_witness :
  decodeToken (Sample.verifier_lib Sample.request_v5) "token" = Ok Sample.request_v5
  /\ network Sample.request_v5 = Some (Sample.bare 5)
  /\ verifyTxRequest (Sample.verifier_lib Sample.request_v5) "token"
       Sample.wallet Sample.domain
     = ([EvDecodeToken "token"], Throw "Invalid network version provided").
Proof.
  split; [reflexivity | split; [reflexivity |] ].
  refine (proj1 (invalid_network_version_fails_first
                   (Sample.verifier_lib Sample.request_v5) "token"
                   Sample.wallet Sample.domain Sample.request_v5 (Sample.bare 5)
                   _ _ _ _)).
  - reflexivity.
  - reflexivity.
  - discriminate.
  - discriminate.
Defined.

(** Every address derivation of [verifyTxRequest] asks for the version
    that [getTransactionVersionFromRequest] resolved. *)
Lemma verifyTxRequest_derivations lib requestToken wallet appDomain tx txVersion :
  decodeToken lib requestToken = Ok tx ->
  getTransactionVersionFromRequest lib tx = Ok txVersion ->
  Forall (fun e => forall v, derivation_version e = Some v -> v = txVersion)
    (trace (verifyTxRequest lib requestToken wallet appDomain)).
Proof.
  intros Hdec Hv. unfold verifyTxRequest.
  rewrite Hdec, bind_call_Ok. cbn [trace fst].
  constructor; [intros v; discriminate |].
  rewrite Hv, bind_lift_Ok, trace_bind. apply Forall_app. split.
  { constructor; [intros v; discriminate | constructor]. }
  unfold call at 1. cbn [outcome snd].
  destruct (new_TokenVerifier lib "ES256k" (publicKey tx)) as [vf | msg]; [| constructor].
  rewrite trace_bind. apply Forall_app. split.
  { constructor; [intros v; discriminate | constructor]. }
  unfold call at 1. cbn [outcome snd].
  destruct (verifyAsync lib vf requestToken) as [[|] | msg]; cbn [negb];
    try constructor.
  rewrite trace_bind. apply Forall_app. split.
  - apply find_trace_Forall. intros account _. apply accountMatches_derivations.
  - destruct (outcome _) as [[account |] | msg]; constructor.
Qed.

End VerifyFacts.

(* ================================================================== *)
(** ** Normalization and construction *)
(* ================================================================== *)

Module BuildFacts.
Import Tx Rules EffFacts.

Lemma map_result_Forall2 {A B} (f : A -> Result B) (xs : list A) (ys : list B) :
  map_result f xs = Ok ys <-> Forall2 (fun x y => f x = Ok y) xs ys.
Proof.
  revert ys. induction xs as [| x rest IH]; intros ys; simpl.
  - split.
    + intros H. injection H as <-. constructor.
    + intros H. inversion H. reflexivity.
  - destruct (f x) as [y | msg] eqn:Hx; cbn [rbind].
    + destruct (map_result f rest) as [ys' | msg] eqn:Hrest; cbn [rbind].
      * split.
        -- intros H. injection H as <-. constructor; [exact Hx | apply IH; reflexivity].
        -- intros H. inversion H as [| ? y0 ? ys0 Hy Hys]; subst.
           apply IH in Hys. congruence.
      * split; [discriminate |].
        intros H. inversion H as [| ? y0 ? ys0 Hy Hys]; subst.
        apply IH in Hys. discriminate.
    + split; [discriminate |].
      intros H. inversion H; subst. congruence.
Qed.

Lemma normalizePostCondition_normalized lib entry pc :
  normalizePostCondition lib entry = Ok pc <-> normalized lib entry pc.
Proof.
  destruct entry as [hex | fields]; simpl.
  - split.
    + intros H. constructor. exact H.
    + intros H. inversion H; subst. assumption.
  - unfold has_key, get.
    destruct (lookup "amount" fields) as [v |] eqn:Hl; cbn [andb].
    + destruct (truthy v) eqn:Ht.
      * destruct (new_BN lib v (Some 16%Z)) as [a | msg] eqn:Hbn; cbn [rbind].
        -- split.
           ++ intros H. injection H as <-. eapply norm_amount; eassumption.
           ++ intros H. inversion H; subst; try congruence.
              replace a0 with a by congruence. reflexivity.
        -- split; [discriminate |].
           intros H. inversion H; subst; congruence.
      * split.
        -- intros H. injection H as <-. eapply norm_falsy_amount; eassumption.
        -- intros H. inversion H; subst; first [reflexivity | congruence].
    + split.
      * intros H. injection H as <-. apply norm_no_amount. exact Hl.
      * intros H. inversion H; subst; first [reflexivity | congruence].
Qed.

Lemma lookup_spread_set fields k k' v :
  lookup k (spread_set fields k' v) =
  if String.eqb k k' then Some v else lookup k fields.
Proof.
  induction fields as [| [k0 v0] rest IH]; simpl.
  - reflexivity.
  - destruct (String.eqb k' k0) eqn:E0; simpl.
    + apply String.eqb_eq in E0. subst k0.
      destruct (String.eqb k k'); reflexivity.
    + destruct (String.eqb k k0) eqn:E1.
      * apply String.eqb_eq in E1. subst k0.
        rewrite String.eqb_sym, E0. reflexivity.
      * exact IH.
Qed.

(** [C7] Normalization of a list of post-condition entries succeeds with
    a list [out] exactly when [out] matches the entries one by one: a hex
    string by the post-condition read by a reader at offset 0 over the
    decoded bytes; an object with a truthy [amount] by the same object
    with [amount] replaced by the big integer parsed in base 16; an
    object whose [amount] is absent or falsy by itself, unchanged.  An
    absent list stays absent. *)
Theorem getPostConditions_entrywise lib :
  getPostConditions lib None = Ok None
  /\ (forall entries out,
        getPostConditions lib (Some entries) = Ok (Some out) <->
        Forall2 (normalized lib) entries out)
  /\ (forall fields a k,
        lookup k (spread_set fields "amount" (JsBN a)) =
        if String.eqb k "amount" then Some (JsBN a) else lookup k fields).
Proof.
  split; [reflexivity | split].
  - intros entries out. unfold getPostConditions.
    destruct (map_result (normalizePostCondition lib) entries) as [pcs | msg] eqn:Hm;
      cbn [rbind].
    + split.
      * intros H. injection H as <-.
        apply map_result_Forall2 in Hm.
        eapply Forall2_impl; [| exact Hm].
        intros x y Hxy. apply normalizePostCondition_normalized. exact Hxy.
      * intros H.
        assert (Hout : map_result (normalizePostCondition lib) entries = Ok out).
        { apply map_result_Forall2. eapply Forall2_impl; [| exact H].
          intros x y Hxy. apply normalizePostCondition_normalized. exact Hxy. }
        congruence.
    + split; [discriminate |].
      intros H.
      assert (Hout : map_result (normalizePostCondition lib) entries = Ok out).
      { apply map_result_Forall2. eapply Forall2_impl; [| exact H].
        intros x y Hxy. apply normalizePostCondition_normalized. exact Hxy. }
      congruence.
  - intros fields a k. apply lookup_spread_set.
Qed.

Lemma getPostConditions_entrywise_witness :
  Forall2 (normalized (Sample.node_lib Sample.rejected))
    [PcHex "0001ab"; PcObj Sample.hex_amount; PcObj Sample.no_amount]
    [ [("serialized", JsStr "0001ab"); ("offset", JsNum 0)];
      [("type", JsNum 1); ("amount", JsBN 255); ("conditionCode", JsNum 3)];
      Sample.no_amount ].
Proof.
  apply (proj1 (proj2 (getPostConditions_entrywise (Sample.node_lib Sample.rejected)))).
  reflexivity.
Defined.

(** [C7], as stated, fails: an object that carries an [amount] field
    whose value is the number 0 is returned unchanged, its amount still
    a number. *)
Lemma zero_amount_passes_through :
  has_key "amount" Sample.zero_amount = true
  /\ getPostConditions (Sample.node_lib Sample.rejected) (Some [PcObj Sample.zero_amount])
     = Ok (Some [Sample.zero_amount])
  /\ lookup "amount" Sample.zero_amount = Some (JsNum 0)
  /\ forall a, lookup "amount" Sample.zero_amount <> Some (JsBN a).
Proof.
  repeat split; try reflexivity. intros a. discriminate.
Qed.

Lemma txType_resolveNetwork lib txData :
  txType (resolveNetwork lib txData) = txType txData.
Proof. unfold resolveNetwork. destruct (negb _); reflexivity. Qed.

(** The events of each construction path: at most the one call of its
    own constructor, carrying the network of the payload it was given. *)
Lemma generateContractCallTx_trace lib txData senderKey nonce :
  Forall (fun e => is_contract_call e = true
                   /\ construction_network e = Some (network txData))
    (trace (generateContractCallTx lib txData senderKey nonce)).
Proof.
  unfold generateContractCallTx. rewrite bind_lift.
  destruct (map_result _ (functionArgs txData)); [| constructor].
  rewrite bind_lift. destruct (nonce_BN lib nonce); [| constructor].
  rewrite bind_lift. destruct (getPostConditions lib _); [| constructor].
  cbn [trace fst call]. constructor; [split; reflexivity | constructor].
Qed.

Lemma generateContractDeployTx_trace lib txData senderKey nonce :
  Forall (fun e => is_contract_deploy e = true
                   /\ construction_network e = Some (network txData))
    (trace (generateContractDeployTx lib txData senderKey nonce)).
Proof.
  unfold generateContractDeployTx.
  rewrite bind_lift. destruct (nonce_BN lib nonce); [| constructor].
  rewrite bind_lift. destruct (getPostConditions lib _); [| constructor].
  cbn [trace fst call]. constructor; [split; reflexivity | constructor].
Qed.

Lemma generateSTXTransferTx_trace lib txData senderKey nonce :
  Forall (fun e => is_token_transfer e = true
                   /\ construction_network e = Some (network txData))
    (trace (generateSTXTransferTx lib txData senderKey nonce)).
Proof.
  unfold generateSTXTransferTx.
  rewrite bind_lift. destruct (new_BN lib _ None); [| constructor].
  rewrite bind_lift. destruct (nonce_BN lib nonce); [| constructor].
  cbn [trace fst call]. constructor; [split; reflexivity | constructor].
Qed.

(** What the [switch] does for each tag. *)
Lemma dispatch_cases lib txData senderKey nonce :
  dispatch lib txData senderKey nonce =
  if String.eqb (txType txData) (TransactionTypes_ContractCall lib) then
    generateContractCallTx lib txData senderKey nonce
  else if String.eqb (txType txData) (TransactionTypes_ContractDeploy lib) then
    generateContractDeployTx lib txData senderKey nonce
  else if String.eqb (txType txData) (TransactionTypes_STXTransfer lib) then
    generateSTXTransferTx lib txData senderKey nonce
  else ([], Throw ("Invalid Transaction Type: " ++ txType txData)%string).
Proof.
  unfold dispatch.
  destruct (String.eqb _ (TransactionTypes_ContractCall lib)); [apply bind_ret_Some |].
  destruct (String.eqb _ (TransactionTypes_ContractDeploy lib)); [apply bind_ret_Some |].
  destruct (String.eqb _ (TransactionTypes_STXTransfer lib)); [apply bind_ret_Some |].
  reflexivity.
Qed.

(** Every construction call of a dispatch carries the payload's network. *)
Lemma dispatch_networks lib txData senderKey nonce :
  Forall (fun e => forall n, construction_network e = Some n -> n = network txData)
    (trace (dispatch lib txData senderKey nonce)).
Proof.
  rewrite dispatch_cases.
  destruct (String.eqb _ (TransactionTypes_ContractCall lib)).
  { eapply Forall_impl; [| apply generateContractCallTx_trace].
    intros e [_ He] n Hn. congruence. }
  destruct (String.eqb _ (TransactionTypes_ContractDeploy lib)).
  { eapply Forall_impl; [| apply generateContractDeployTx_trace].
    intros e [_ He] n Hn. congruence. }
  destruct (String.eqb _ (TransactionTypes_STXTransfer lib)).
  { eapply Forall_impl; [| apply generateSTXTransferTx_trace].
    intros e [_ He] n Hn. congruence. }
  constructor.
Qed.

(** [C4] With the three kind tags distinct, [generateTransaction] runs,
    on the payload with its network resolved, the construction path of
    the payload's tag and no other: its outcome is that path's and every
    construction call it makes is that path's constructor.  For a tag
    outside the three it makes no call and throws "Invalid Transaction
    Type: " followed by the tag. *)
Theorem generateTransaction_dispatch lib txData senderKey nonce :
  NoDup [TransactionTypes_ContractCall lib;
         TransactionTypes_ContractDeploy lib;
         TransactionTypes_STXTransfer lib] ->
  (txType txData = TransactionTypes_ContractCall lib ->
     snd (generateTransaction lib txData senderKey nonce)
       = generateContractCallTx lib (resolveNetwork lib txData) senderKey nonce
     /\ Forall (fun e => is_contract_call e = true)
          (trace (snd (generateTransaction lib txData senderKey nonce))))
  /\ (txType txData = TransactionTypes_ContractDeploy lib ->
        snd (generateTransaction lib txData senderKey nonce)
          = generateContractDeployTx lib (resolveNetwork lib txData) senderKey nonce
        /\ Forall (fun e => is_contract_deploy e = true)
             (trace (snd (generateTransaction lib txData senderKey nonce))))
  /\ (txType txData = TransactionTypes_STXTransfer lib ->
        snd (generateTransaction lib txData senderKey nonce)
          = generateSTXTransferTx lib (resolveNetwork lib txData) senderKey nonce
        /\ Forall (fun e => is_token_transfer e = true)
             (trace (snd (generateTransaction lib txData senderKey nonce))))
  /\ (~ In (txType txData) [TransactionTypes_ContractCall lib;
                            TransactionTypes_ContractDeploy lib;
                            TransactionTypes_STXTransfer lib] ->
        snd (generateTransaction lib txData senderKey nonce)
          = ([], Throw ("Invalid Transaction Type: " ++ txType txData)%string)).
Proof.
  intros Hnd.
  assert (Hcd : TransactionTypes_ContractCall lib <> TransactionTypes_ContractDeploy lib).
  { inversion Hnd as [| ? ? Hnot _]. intros E. apply Hnot. left. symmetry. exact E. }
  assert (Hcs : TransactionTypes_ContractCall lib <> TransactionTypes_STXTransfer lib).
  { inversion Hnd as [| ? ? Hnot _]. intros E. apply Hnot. right. left. symmetry. exact E. }
  assert (Hds : TransactionTypes_ContractDeploy lib <> TransactionTypes_STXTransfer lib).
  { inversion Hnd as [| ? ? _ Hnd']. inversion Hnd' as [| ? ? Hnot _].
    intros E. apply Hnot. left. symmetry. exact E. }
  unfold generateTransaction. cbn [snd].
  rewrite dispatch_cases, txType_resolveNetwork.
  repeat split.
  - rewrite H, String.eqb_refl. reflexivity.
  - rewrite H, String.eqb_refl.
    eapply Forall_impl; [| apply generateContractCallTx_trace]. intros e [He _]. exact He.
  - rewrite H. apply not_eq_sym, String.eqb_neq in Hcd. rewrite Hcd, String.eqb_refl.
    reflexivity.
  - rewrite H. apply not_eq_sym, String.eqb_neq in Hcd. rewrite Hcd, String.eqb_refl.
    eapply Forall_impl; [| apply generateContractDeployTx_trace]. intros e [He _]. exact He.
  - rewrite H. apply not_eq_sym, String.eqb_neq in Hcs, Hds.
    rewrite Hcs, Hds, String.eqb_refl. reflexivity.
  - rewrite H. apply not_eq_sym, String.eqb_neq in Hcs, Hds.
    rewrite Hcs, Hds, String.eqb_refl.
    eapply Forall_impl; [| apply generateSTXTransferTx_trace]. intros e [He _]. exact He.
  - intros Hout.
    destruct (String.eqb_spec (txType txData) (TransactionTypes_ContractCall lib)) as [E | _].
    { exfalso. apply Hout. left. symmetry. exact E. }
    destruct (String.eqb_spec (txType txData) (TransactionTypes_ContractDeploy lib)) as [E | _].
    { exfalso. apply Hout. right. left. symmetry. exact E. }
    destruct (String.eqb_spec (txType txData) (TransactionTypes_STXTransfer lib)) as [E | _].
    { exfalso. apply Hout. right. right. left. symmetry. exact E. }
    reflexivity.
Qed.

Lemma generateTransaction_dispatch_witness :
  NoDup ["contract_call"; "smart_contract"; "token_transfer"]
  /\ snd (generateTransaction (Sample.node_lib Sample.rejected)
            (Sample.with_type "smart_contract" Sample.request_v5) "sender-key" (Some 7%Z))
     = generateContractDeployTx (Sample.node_lib Sample.rejected)
         (resolveNetwork (Sample.node_lib Sample.rejected)
            (Sample.with_type "smart_contract" Sample.request_v5))
         "sender-key" (Some 7%Z)
  /\ snd (generateTransaction (Sample.node_lib Sample.rejected)
            (Sample.with_type "coinbase" Sample.request_v5) "sender-key" (Some 7%Z))
     = ([], Throw "Invalid Transaction Type: coinbase").
Proof.
  assert (Hnd : NoDup ["contract_call"; "smart_contract"; "token_transfer"]).
  { repeat constructor; simpl; intros H;
      repeat (destruct H as [H | H]; [discriminate H |]); exact H. }
  split; [exact Hnd | split].
  - apply (generateTransaction_dispatch (Sample.node_lib Sample.rejected)
             (Sample.with_type "smart_contract" Sample.request_v5) "sender-key" (Some 7%Z) Hnd).
    reflexivity.
  - apply (generateTransaction_dispatch (Sample.node_lib Sample.rejected)
             (Sample.with_type "coinbase" Sample.request_v5) "sender-key" (Some 7%Z) Hnd).
    simpl. intros H.
    repeat (destruct H as [H | H]; [discriminate H |]). exact H.
Defined.

(** [C8] A payload whose network descriptor has the Testnet version tag
    (distinct from the Mainnet tag) and no fee-estimate capability leaves
    [generateTransaction] with the default testnet object as its network,
    and every construction call receives that object.  A payload whose
    descriptor has the capability is left as it is, and every
    construction call receives the descriptor itself. *)
Theorem generateTransaction_network_resolution lib txData senderKey nonce net :
  network txData = Some net ->
  (version net = TransactionVersion_Testnet lib ->
   TransactionVersion_Testnet lib <> TransactionVersion_Mainnet lib ->
   getTransferFeeEstimateApiUrl net = None ->
     network (fst (generateTransaction lib txData senderKey nonce))
       = Some (new_StacksTestnet lib)
     /\ Forall (fun e => forall n, construction_network e = Some n ->
                           n = Some (new_StacksTestnet lib))
          (trace (snd (generateTransaction lib txData senderKey nonce))))
  /\ (forall url, getTransferFeeEstimateApiUrl net = Some url ->
        fst (generateTransaction lib txData senderKey nonce) = txData
        /\ Forall (fun e => forall n, construction_network e = Some n -> n = Some net)
             (trace (snd (generateTransaction lib txData senderKey nonce)))).
Proof.
  intros Hnet. unfold generateTransaction. cbn [fst snd]. split.
  - intros Hv Hdistinct Hfee.
    assert (Hres : network (resolveNetwork lib txData) = Some (new_StacksTestnet lib)).
    { unfold resolveNetwork, has_fee_estimate, is_mainnet. rewrite Hnet, Hfee, Hv.
      apply Z.eqb_neq in Hdistinct. rewrite Hdistinct. reflexivity. }
    split; [exact Hres |].
    rewrite <- Hres. apply dispatch_networks.
  - intros url Hfee.
    assert (Hres : resolveNetwork lib txData = txData).
    { unfold resolveNetwork, has_fee_estimate. rewrite Hnet, Hfee. reflexivity. }
    rewrite Hres. split; [reflexivity |].
    rewrite <- Hnet. apply dispatch_networks.
Qed.

Lemma generateTransaction_network_resolution_witness :
  network (Sample.payload (Some (Sample.bare 128)) None) = Some (Sample.bare 128)
  /\ network (fst (generateTransaction (Sample.node_lib Sample.rejected)
                     (Sample.payload (Some (Sample.bare 128)) None) "sender-key" None))
     = Some Sample.testnet
  /\ Forall (fun e => forall n, construction_network e = Some n -> n = Some Sample.testnet)
       (trace (snd (generateTransaction (Sample.node_lib Sample.rejected)
                      (Sample.payload (Some (Sample.bare 128)) None) "sender-key" None))).
Proof.
  split; [reflexivity |].
  apply (generateTransaction_network_resolution (Sample.node_lib Sample.rejected)
           (Sample.payload (Some (Sample.bare 128)) None) "sender-key" None
           (Sample.bare 128)).
  - reflexivity.
  - reflexivity.
  - discriminate.
  - reflexivity.
Defined.

(** A custom network object with the capability reaches the constructor
    untouched; a bare testnet descriptor is replaced. *)
Example generateTransaction_networks :
  trace (snd (generateTransaction (Sample.node_lib Sample.rejected)
                (Sample.payload (Some Sample.mainnet) None) "sender-key" None))
  = [EvMakeSTXTokenTransfer
       {| tt_recipient := "SP2J6ZY48GV1EZ5V2V5RB9MP66SW86PYKKNRV9EJ7";
          tt_memo := None; tt_senderKey := "sender-key"; tt_amount := 1000%Z;
          tt_nonce := None; tt_network := Some Sample.mainnet |}]
  /\ trace (snd (generateTransaction (Sample.node_lib Sample.rejected)
                   (Sample.payload (Some (Sample.bare 128)) None) "sender-key" None))
     = [EvMakeSTXTokenTransfer
          {| tt_recipient := "SP2J6ZY48GV1EZ5V2V5RB9MP66SW86PYKKNRV9EJ7";
             tt_memo := None; tt_senderKey := "sender-key"; tt_amount := 1000%Z;
             tt_nonce := None; tt_network := Some Sample.testnet |}].
Proof. split; reflexivity. Qed.

End BuildFacts.

(* ================================================================== *)
(** ** Broadcast *)
(* ================================================================== *)

Module BroadcastFacts.
Import Tx Rules EffFacts.

(** The run of [finishTransaction] on an accepted transaction. *)
Lemma finishTransaction_accepted lib tx nodeUrl s :
  broadcastTX lib nodeUrl (serialize tx) = Ok {| ok := true; json := Ok (JsStr s) |} ->
  finishTransaction lib tx nodeUrl
  = ([EvBroadcastTX nodeUrl (serialize tx)],
     Ok {| txId := ("0x" ++ Js.replace dquote_str EmptyString s)%string;
           txRaw := ("0x" ++ toString_hex (serialize tx))%string |}).
Proof.
  intros Hres. unfold finishTransaction. rewrite Hres, bind_call_Ok.
  cbn [ok json]. rewrite bind_lift_Ok. reflexivity.
Qed.

(** [C5] When the node accepts the transaction and answers with the JSON
    string "abc123" (the quoted id of the response body, which [json()]
    decodes to abc123), [finishTransaction] returns, after its single
    broadcast, the [txId] "0xabc123" and the [txRaw] made of "0x" and the
    hex of the serialized bytes. *)
Theorem finishTransaction_quoted_id_response lib tx nodeUrl res :
  broadcastTX lib nodeUrl (serialize tx) = Ok res ->
  ok res = true ->
  json res = Ok (JsStr "abc123") ->
  finishTransaction lib tx nodeUrl
  = ([EvBroadcastTX nodeUrl (serialize tx)],
     Ok {| txId := "0xabc123";
           txRaw := ("0x" ++ toString_hex (serialize tx))%string |}).
Proof.
  intros Hres Hok Hjson. unfold finishTransaction.
  rewrite Hres, bind_call_Ok, Hok, Hjson, bind_lift_Ok. reflexivity.
Qed.

Lemma finishTransaction_quoted_id_response_witness :
  finishTransaction (Sample.node_lib (Sample.accepted "abc123"))
    Sample.signed_tx "https://node.example"
  = ([EvBroadcastTX "https://node.example" (serialize Sample.signed_tx)],
     Ok {| txId := "0xabc123"; txRaw := "0x000000000104abcd" |}).
Proof.
  apply (finishTransaction_quoted_id_response (Sample.node_lib (Sample.accepted "abc123"))
           Sample.signed_tx "https://node.example"
           {| ok := true; json := Ok (JsStr "abc123") |});
    reflexivity.
Defined.

(** Without a quote in it, a string is left alone by the replacement;
    between quotes, it loses the opening quote and keeps the closing one. *)
Lemma replace_unquoted (s : string) :
  remove_all dquote s = s ->
  Js.replace dquote_str EmptyString s = s.
Proof.
  assert (Hlen : forall t, String.length (remove_all dquote t) <= String.length t).
  { induction t as [| d t IHt]; cbn [remove_all String.length]; [lia |].
    destruct (Ascii.eqb dquote d); cbn [String.length]; lia. }
  induction s as [| c s IH]; intros Hs; [reflexivity |].
  cbn [remove_all] in Hs. cbn [Js.replace dquote_str starts_with].
  destruct (Ascii.eqb dquote c) eqn:Hc.
  - exfalso. specialize (Hlen s). rewrite Hs in Hlen.
    cbn [String.length] in Hlen. lia.
  - cbn [andb]. injection Hs as Hs. rewrite (IH Hs). reflexivity.
Qed.

Lemma replace_quoted (s : string) :
  Js.replace dquote_str EmptyString (quoted s) = (s ++ dquote_str)%string.
Proof. reflexivity. Qed.

(** A doubly encoded answer: when [json()] itself resolves to the id
    between double quotes, the replacement removes the opening quote only
    and the [txId] returned is "0xabc123" followed by a double quote. *)
Lemma finishTransaction_keeps_closing_quote lib tx nodeUrl :
  broadcastTX lib nodeUrl (serialize tx)
    = Ok {| ok := true; json := Ok (JsStr (quoted "abc123")) |} ->
  outcome (finishTransaction lib tx nodeUrl)
    = Ok {| txId := ("0xabc123" ++ dquote_str)%string;
            txRaw := ("0x" ++ toString_hex (serialize tx))%string |}
  /\ ("0xabc123" ++ dquote_str)%string <> "0xabc123"
  /\ remove_all dquote (quoted "abc123") = "abc123"
  /\ Js.replace dquote_str EmptyString (quoted "abc123") <> "abc123".
Proof.
  intros Hres. rewrite (finishTransaction_accepted _ _ _ _ Hres).
  repeat split; try reflexivity; discriminate.
Qed.

Lemma finishTransaction_keeps_closing_quote_witness :
  outcome (finishTransaction (Sample.node_lib (Sample.accepted (quoted "abc123")))
             Sample.signed_tx "https://node.example")
  = Ok {| txId := ("0xabc123" ++ dquote_str)%string;
          txRaw := "0x000000000104abcd" |}.
Proof.
  apply (finishTransaction_keeps_closing_quote
           (Sample.node_lib (Sample.accepted (quoted "abc123")))
           Sample.signed_tx "https://node.example").
  reflexivity.
Defined.




End BroadcastFacts.

(* ================================================================== *)
(** ** Submission handler *)
(* ================================================================== *)

Module SubmitFacts.
Import Submit EffFacts.

(** Whatever happens inside the [try], the guarded block completes
    normally once the toast of the [catch] does. *)
Lemma guarded_attempt_completes h tx :
  toast_error h "Something went wrong" = Ok tt ->
  exists t,
    try_catch (attempt h tx)
      (fun _ => call (EvToastError "Something went wrong")
                  (toast_error h "Something went wrong"))
    = (t, Ok tt).
Proof.
  intros Htoast.
  destruct (attempt h tx) as [t [[] | msg]]; cbn [try_catch].
  - exists t. reflexivity.
  - rewrite Htoast. eexists. reflexivity.
Qed.

Lemma cleanup_runs h :
  onClose h = Ok tt ->
  setIsIdle h = Ok tt ->
  doChangeScreen h (ScreenPaths_HOME h) = Ok tt ->
  cleanup h = ([EvOnClose; EvSetIsIdle; EvDoChangeScreen (ScreenPaths_HOME h)], Ok tt).
Proof.
  intros Hc Hi Hs. unfold cleanup. rewrite Hc, Hi, Hs. reflexivity.
Qed.

(** [C9] Provided the interface callbacks themselves return (the loading
    setters, the close callback, the screen change and the toast of the
    [catch]), every run of the handler ends by calling the close
    callback, clearing the loading flag and changing to the home screen,
    in this order, and completes normally: with no transaction, with a
    broadcast that succeeds or is rejected, and with any exception thrown
    by the broadcast, the nonce update, the revalidation or a toast
    inside the [try]. *)
Theorem handleSubmit_always_cleans_up h :
  setIsLoading h = Ok tt ->
  onClose h = Ok tt ->
  setIsIdle h = Ok tt ->
  doChangeScreen h (ScreenPaths_HOME h) = Ok tt ->
  toast_error h "Something went wrong" = Ok tt ->
  exists before,
    handleSubmit h
    = (EvSetIsLoading :: before
         ++ [EvOnClose; EvSetIsIdle; EvDoChangeScreen (ScreenPaths_HOME h)],
       Ok tt).
Proof.
  intros Hload Hclose Hidle Hscreen Htoast. unfold handleSubmit.
  rewrite Hload, bind_call_Ok, (cleanup_runs h Hclose Hidle Hscreen).
  destruct (transaction h) as [tx |].
  - destruct (guarded_attempt_completes h tx Htoast) as [t Ht]. rewrite Ht.
    exists t. reflexivity.
  - exists []. reflexivity.
Qed.

Lemma handleSubmit_always_cleans_up_witness :
  exists before,
    handleSubmit (Sample.hooks (Some Sample.signed_tx) (Ok (TxBroadcastResultOk "abc123")))
    = (EvSetIsLoading :: before ++ [EvOnClose; EvSetIsIdle; EvDoChangeScreen "/"], Ok tt).
Proof.
  apply (handleSubmit_always_cleans_up
           (Sample.hooks (Some Sample.signed_tx) (Ok (TxBroadcastResultOk "abc123"))));
    reflexivity.
Defined.

(** [C9], as stated, fails: the cleanup follows the [try] statement and is
    not itself protected.  When the broadcast throws and the toast of the
    [catch] throws as well, the handler rejects having called neither the
    close callback, nor the loading reset, nor the screen change; when,
    with no transaction, the close callback throws, the loading flag is
    not cleared and the screen is not changed. *)
Lemma handleSubmit_cleanup_skipped :
  handleSubmit Obs.hooks_toast_throws
  = ([EvSetIsLoading;
      EvBroadcastTransaction Sample.signed_tx Sample.testnet;
      EvToastError "Something went wrong"],
     Throw "toaster is not mounted")
  /\ ~ In EvOnClose (trace (handleSubmit Obs.hooks_toast_throws))
  /\ ~ In EvSetIsIdle (trace (handleSubmit Obs.hooks_toast_throws))
  /\ (forall screen,
        ~ In (EvDoChangeScreen screen) (trace (handleSubmit Obs.hooks_toast_throws)))
  /\ handleSubmit Obs.hooks_close_throws
     = ([EvSetIsLoading; EvOnClose], Throw "drawer already closed").
Proof.
  split; [reflexivity |].
  split; [intros [H | [H | [H | []]]]; discriminate H |].
  split; [intros [H | [H | [H | []]]]; discriminate H |].
  split; [intros screen [H | [H | [H | []]]]; discriminate H |].
  reflexivity.
Qed.

(** The four kinds of run: no transaction; accepted, with the nonce
    update throwing; rejected; broadcast throwing. *)
Example handleSubmit_runs :
  trace (handleSubmit (Sample.hooks None (Throw "offline")))
  = [EvSetIsLoading; EvOnClose; EvSetIsIdle; EvDoChangeScreen "/"]
  /\ trace (handleSubmit (Sample.hooks (Some Sample.signed_tx)
                            (Ok (TxBroadcastResultOk "abc123"))))
     = [EvSetIsLoading; EvBroadcastTransaction Sample.signed_tx Sample.testnet;
        EvDoSetLatestNonce Sample.signed_tx; EvToastError "Something went wrong";
        EvOnClose; EvSetIsIdle; EvDoChangeScreen "/"]
  /\ trace (handleSubmit (Sample.hooks (Some Sample.signed_tx)
                            (Ok (TxBroadcastResultRejected "BadNonce"))))
     = [EvSetIsLoading; EvBroadcastTransaction Sample.signed_tx Sample.testnet;
        EvToastError "Incorrect nonce.";
        EvOnClose; EvSetIsIdle; EvDoChangeScreen "/"]
  /\ trace (handleSubmit (Sample.hooks (Some Sample.signed_tx) (Throw "offline")))
     = [EvSetIsLoading; EvBroadcastTransaction Sample.signed_tx Sample.testnet;
        EvToastError "Something went wrong";
        EvOnClose; EvSetIsIdle; EvDoChangeScreen "/"].
Proof. repeat split; reflexivity. Qed.

End SubmitFacts.

(* ================================================================== *)
(** ** The defaults for an absent network *)
(* ================================================================== *)

Module DefaultFacts.
Import Tx Rules EffFacts.

(** [C10] For a payload with no network, [generateTransaction] assigns
    the default testnet object, which every construction call receives.
    Whenever it substitutes a default, that default is the mainnet object
    if a descriptor is present with the Mainnet version tag, and the
    testnet object in every other case.  [verifyTxRequest], for a
    payload with no network, resolves the Mainnet version and asks every
    address derivation for it. *)
Theorem absent_network_defaults lib :
  (forall txData senderKey nonce,
      network txData = None ->
      network (fst (generateTransaction lib txData senderKey nonce))
        = Some (new_StacksTestnet lib)
      /\ Forall (fun e => forall n, construction_network e = Some n ->
                            n = Some (new_StacksTestnet lib))
           (trace (snd (generateTransaction lib txData senderKey nonce))))
  /\ (forall txData senderKey nonce,
        has_fee_estimate (network txData) = false ->
        ((exists net, network txData = Some net
                      /\ version net = TransactionVersion_Mainnet lib) ->
           network (fst (generateTransaction lib txData senderKey nonce))
             = Some (new_StacksMainnet lib))
        /\ (~ (exists net, network txData = Some net
                           /\ version net = TransactionVersion_Mainnet lib) ->
              network (fst (generateTransaction lib txData senderKey nonce))
                = Some (new_StacksTestnet lib)))
  /\ (forall requestToken wallet appDomain tx,
        decodeToken lib requestToken = Ok tx ->
        network tx = None ->
        getTransactionVersionFromRequest lib tx = Ok (TransactionVersion_Mainnet lib)
        /\ Forall (fun e => forall v, derivation_version e = Some v ->
                              v = TransactionVersion_Mainnet lib)
             (trace (verifyTxRequest lib requestToken wallet appDomain))).
Proof.
  split; [| split].
  - intros txData senderKey nonce Hnet.
    assert (Hres : network (resolveNetwork lib txData) = Some (new_StacksTestnet lib)).
    { unfold resolveNetwork, has_fee_estimate, is_mainnet. rewrite Hnet. reflexivity. }
    unfold generateTransaction. cbn [fst snd]. split; [exact Hres |].
    rewrite <- Hres. apply BuildFacts.dispatch_networks.
  - intros txData senderKey nonce Hfee.
    unfold generateTransaction, resolveNetwork. cbn [fst]. rewrite Hfee. cbn [negb].
    split.
    + intros (net & Hnet & Hv). unfold is_mainnet. rewrite Hnet, Hv, Z.eqb_refl.
      reflexivity.
    + intros Hno. unfold is_mainnet.
      destruct (network txData) as [net |]; [| reflexivity].
      destruct (Z.eqb_spec (version net) (TransactionVersion_Mainnet lib)) as [E | _];
        [| reflexivity].
      exfalso. apply Hno. exists net. split; [reflexivity | exact E].
  - intros requestToken wallet appDomain tx Hdec Hnet.
    assert (Hv : getTransactionVersionFromRequest lib tx
                 = Ok (TransactionVersion_Mainnet lib)).
    { unfold getTransactionVersionFromRequest. rewrite Hnet. reflexivity. }
    split; [exact Hv |].
    apply (VerifyFacts.verifyTxRequest_derivations _ _ _ _ _ _ Hdec Hv).
Qed.

Lemma absent_network_defaults_witness :
  network (fst (generateTransaction (Sample.verifier_lib Sample.request_no_network)
                  Sample.request_no_network "sender-key" None))
    = Some Sample.testnet
  /\ getTransactionVersionFromRequest (Sample.verifier_lib Sample.request_no_network)
       Sample.request_no_network = Ok 0%Z
  /\ Forall (fun e => forall v, derivation_version e = Some v -> v = 0%Z)
       (trace (verifyTxRequest (Sample.verifier_lib Sample.request_no_network) "token"
                 Sample.wallet Sample.domain)).
Proof.
  split.
  - apply (proj1 (absent_network_defaults (Sample.verifier_lib Sample.request_no_network))
             Sample.request_no_network "sender-key" None).
    reflexivity.
  - apply (proj2 (proj2 (absent_network_defaults
                           (Sample.verifier_lib Sample.request_no_network)))
             "token" Sample.wallet Sample.domain Sample.request_no_network);
      reflexivity.
Defined.

(** The same payload with no network: built for testnet, verified
    against the mainnet address of the account. *)
Example absent_network_runs :
  trace (snd (generateTransaction (Sample.verifier_lib Sample.request_no_network)
                Sample.request_no_network "sender-key" None))
  = [EvMakeSTXTokenTransfer
       {| tt_recipient := "SP2J6ZY48GV1EZ5V2V5RB9MP66SW86PYKKNRV9EJ7";
          tt_memo := None; tt_senderKey := "sender-key"; tt_amount := 1000%Z;
          tt_nonce := None; tt_network := Some Sample.testnet |}]
  /\ verifyTxRequest (Sample.verifier_lib Sample.request_no_network) "token"
       Sample.wallet Sample.domain
     = ([EvDecodeToken "token";
         EvNewTokenVerifier "ES256k" (Some "pub:apps-bob@https://app.example");
         EvVerifyAsync "token";
         EvGetAppPrivateKey Sample.alice Sample.domain;
         EvGetPublicKeyFromPrivate "apps-alice@https://app.example";
         EvGetAppPrivateKey Sample.bob Sample.domain;
         EvGetPublicKeyFromPrivate "apps-bob@https://app.example";
         EvGetAddressFromPrivateKey "k-bob" 0%Z],
        Ok Sample.request_no_network).
Proof. split; reflexivity. Qed.

End DefaultFacts.

(* ================================================================== *)
(** ** Request verification: stages, scan and wallet *)
(* ================================================================== *)

Module VerifyMore.
Import Tx Rules Obs EffFacts VerifyFacts.

(** A membership in an explicit list that cannot hold. *)
Ltac absurd_in H :=
  repeat (destruct H as [H | H]; [subst; try discriminate |]);
  try contradiction.

Lemma find_Some_of_witness {A} (q : A -> bool) (xs : list A) (x : A) :
  In x xs -> q x = true -> exists y, List.find q xs = Some y.
Proof.
  intros Hin Hq. destruct (List.find q xs) as [y |] eqn:Hf.
  - exists y. reflexivity.
  - rewrite (find_none _ _ Hf x Hin) in Hq. discriminate.
Qed.

(** Success of the traceless outcome, in full. *)
Lemma verify_outcome_iff lib requestToken wallet appDomain v :
  verify_outcome lib requestToken wallet appDomain = Ok v <->
  exists txVersion verifier account,
    decodeToken lib requestToken = Ok v /\
    getTransactionVersionFromRequest lib v = Ok txVersion /\
    new_TokenVerifier lib "ES256k" (publicKey v) = Ok verifier /\
    verifyAsync lib verifier requestToken = Ok true /\
    In account (accounts wallet) /\
    authorizes lib (publicKey v) (stxAddress v) txVersion appDomain account.
Proof.
  unfold verify_outcome. split.
  - destruct (decodeToken lib requestToken) as [tx | msg]; cbn [rbind]; [| discriminate].
    destruct (getTransactionVersionFromRequest lib tx) as [txVersion | msg] eqn:Hv;
      cbn [rbind]; [| discriminate].
    destruct (new_TokenVerifier lib "ES256k" (publicKey tx)) as [vf | msg] eqn:Hnew;
      cbn [rbind]; [| discriminate].
    destruct (verifyAsync lib vf requestToken) as [[|] | msg] eqn:Hsig; cbn [rbind negb];
      try discriminate.
    destruct (List.find _ (accounts wallet)) as [account |] eqn:Hfind; [| discriminate].
    intros Hok. injection Hok as <-.
    apply find_some in Hfind. destruct Hfind as [Hin Hacc].
    exists txVersion, vf, account.
    repeat split; try assumption; apply account_ok_authorizes in Hacc; apply Hacc.
  - intros (txVersion & vf & account & Hdec & Hv & Hnew & Hsig & Hin & Hauth).
    rewrite Hdec. cbn [rbind]. rewrite Hv. cbn [rbind]. rewrite Hnew. cbn [rbind].
    rewrite Hsig. cbn [rbind negb].
    apply account_ok_authorizes in Hauth.
    destruct (find_Some_of_witness _ _ _ Hin Hauth) as [y Hy]. rewrite Hy. reflexivity.
Qed.

(** [X1] [verifyTxRequest] returns a payload exactly when the token
    decodes to it, its network version resolves, the verifier is built,
    the signature verifies and some account of the wallet authorizes the
    request; the payload returned is the decoded one. *)
Theorem verifyTxRequest_succeeds_iff lib requestToken wallet appDomain v :
  outcome (verifyTxRequest lib requestToken wallet appDomain) = Ok v <->
  exists txVersion verifier account,
    decodeToken lib requestToken = Ok v /\
    getTransactionVersionFromRequest lib v = Ok txVersion /\
    new_TokenVerifier lib "ES256k" (publicKey v) = Ok verifier /\
    verifyAsync lib verifier requestToken = Ok true /\
    In account (accounts wallet) /\
    authorizes lib (publicKey v) (stxAddress v) txVersion appDomain account.
Proof.
  rewrite verifyTxRequest_outcome. apply verify_outcome_iff.
Qed.

Lemma verifyTxRequest_succeeds_iff_witness :
  outcome (verifyTxRequest (Sample.verifier_lib Sample.request_bob) "token"
             Sample.wallet Sample.domain) = Ok Sample.request_bob.
Proof.
  apply (proj2 (verifyTxRequest_succeeds_iff (Sample.verifier_lib Sample.request_bob)
                  "token" Sample.wallet Sample.domain Sample.request_bob)).
  exists 128%Z,
    {| tv_algorithm := "ES256k"; tv_publicKey := publicKey Sample.request_bob |},
    Sample.bob.
  repeat split; try reflexivity.
  right. left. reflexivity.
Defined.

(** [X2] When the verifier answers that the signature does not verify,
    [verifyTxRequest] throws "Transaction request is not signed" after the
    three calls that decode the token, build the verifier and verify; the
    wallet is not looked at. *)
Theorem verifyTxRequest_unsigned lib requestToken wallet appDomain tx txVersion verifier :
  decodeToken lib requestToken = Ok tx ->
  getTransactionVersionFromRequest lib tx = Ok txVersion ->
  new_TokenVerifier lib "ES256k" (publicKey tx) = Ok verifier ->
  verifyAsync lib verifier requestToken = Ok false ->
  verifyTxRequest lib requestToken wallet appDomain
  = ([EvDecodeToken requestToken;
      EvNewTokenVerifier "ES256k" (publicKey tx);
      EvVerifyAsync requestToken],
     Throw "Transaction request is not signed").
Proof.
  intros Hdec Hv Hnew Hsig. unfold verifyTxRequest.
  rewrite Hdec, bind_call_Ok, Hv, bind_lift_Ok, Hnew, bind_call_Ok, Hsig, bind_call_Ok.
  reflexivity.
Qed.

Lemma verifyTxRequest_unsigned_witness :
  verifyTxRequest (Sample.lib Sample.unreachable (Ok Sample.request_bob) (Ok false))
    "token" Sample.wallet Sample.domain
  = ([EvDecodeToken "token";
      EvNewTokenVerifier "ES256k" (Some "pub:apps-bob@https://app.example");
      EvVerifyAsync "token"],
     Throw "Transaction request is not signed").
Proof.
  apply (verifyTxRequest_unsigned
           (Sample.lib Sample.unreachable (Ok Sample.request_bob) (Ok false))
           "token" Sample.wallet Sample.domain Sample.request_bob 128%Z
           {| tv_algorithm := "ES256k"; tv_publicKey := publicKey Sample.request_bob |});
    reflexivity.
Defined.

(** [X3] No key or address is derived from an account unless the token
    decoded, the verifier was built and the signature verified. *)
Theorem verifyTxRequest_scans_after_signature lib requestToken wallet appDomain e :
  In e (trace (verifyTxRequest lib requestToken wallet appDomain)) ->
  is_key_derivation e = true ->
  exists tx verifier,
    decodeToken lib requestToken = Ok tx /\
    new_TokenVerifier lib "ES256k" (publicKey tx) = Ok verifier /\
    verifyAsync lib verifier requestToken = Ok true.
Proof.
  unfold verifyTxRequest. intros Hin He.
  destruct (decodeToken lib requestToken) as [tx | msg] eqn:Hdec.
  2:{ cbn in Hin. absurd_in Hin. }
  rewrite bind_call_Ok in Hin. cbn [trace fst] in Hin.
  destruct Hin as [<- | Hin]; [discriminate He |].
  destruct (getTransactionVersionFromRequest lib tx) as [txVersion | msg].
  2:{ cbn in Hin. contradiction. }
  rewrite bind_lift_Ok in Hin.
  destruct (new_TokenVerifier lib "ES256k" (publicKey tx)) as [vf | msg] eqn:Hnew.
  2:{ cbn in Hin. absurd_in Hin. }
  rewrite bind_call_Ok in Hin. cbn [trace fst] in Hin.
  destruct Hin as [<- | Hin]; [discriminate He |].
  destruct (verifyAsync lib vf requestToken) as [[|] | msg] eqn:Hsig.
  - exists tx, vf. repeat split; assumption.
  - rewrite bind_call_Ok in Hin. cbn in Hin. absurd_in Hin.
  - cbn in Hin. absurd_in Hin.
Qed.

Lemma verifyTxRequest_scans_after_signature_witness :
  exists tx verifier,
    decodeToken (Sample.verifier_lib Sample.request_bob) "token" = Ok tx /\
    new_TokenVerifier (Sample.verifier_lib Sample.request_bob) "ES256k" (publicKey tx)
      = Ok verifier /\
    verifyAsync (Sample.verifier_lib Sample.request_bob) verifier "token" = Ok true.
Proof.
  apply (verifyTxRequest_scans_after_signature (Sample.verifier_lib Sample.request_bob)
           "token" Sample.wallet Sample.domain
           (EvGetAppPrivateKey Sample.alice Sample.domain)).
  - cbn. right. right. right. left. reflexivity.
  - reflexivity.
Defined.

(** [X4] Verification only grows with the wallet: a request that a wallet
    authorizes is authorized, with the same payload, by every wallet that
    holds the same accounts and more, in any order. *)
Theorem verifyTxRequest_monotone lib requestToken wallet wallet' appDomain v :
  incl (accounts wallet) (accounts wallet') ->
  outcome (verifyTxRequest lib requestToken wallet appDomain) = Ok v ->
  outcome (verifyTxRequest lib requestToken wallet' appDomain) = Ok v.
Proof.
  intros Hincl. rewrite !verifyTxRequest_outcome, !verify_outcome_iff.
  intros (txVersion & vf & account & Hdec & Hv & Hnew & Hsig & Hin & Hauth).
  exists txVersion, vf, account. repeat split; try assumption; try apply Hauth.
  apply Hincl. exact Hin.
Qed.

Lemma verifyTxRequest_monotone_witness :
  outcome (verifyTxRequest (Sample.verifier_lib Sample.request_bob) "token"
             {| accounts := [carol; Sample.bob; Sample.alice] |} Sample.domain)
  = Ok Sample.request_bob.
Proof.
  apply (verifyTxRequest_monotone (Sample.verifier_lib Sample.request_bob) "token"
           Sample.wallet {| accounts := [carol; Sample.bob; Sample.alice] |}
           Sample.domain Sample.request_bob).
  - intros a [<- | [<- | []]]; cbn; [right; right; left | right; left]; reflexivity.
  - reflexivity.
Defined.

(** A scan stops at an element its callback accepts. *)
Lemma find_stops {E A} (p : A -> M E bool) (pre post : list A) (a : A) :
  outcome (p a) = Ok true ->
  Eff.find p (pre ++ a :: post) = Eff.find p (pre ++ [a]).
Proof.
  intros Ha. induction pre as [| x pre IH]; cbn [app Eff.find].
  - destruct (p a) as [t [[|] | msg]]; cbn in Ha; try discriminate. reflexivity.
  - destruct (p x) as [t [[|] | msg]]; cbn [Eff.bind]; try reflexivity.
    rewrite IH. reflexivity.
Qed.

(** Every event of a scan belongs to the callback run on some element. *)
Lemma find_trace_In {E A} (p : A -> M E bool) (xs : list A) (e : E) :
  In e (trace (Eff.find p xs)) -> exists x, In x xs /\ In e (trace (p x)).
Proof.
  induction xs as [| x rest IH]; cbn [Eff.find].
  - intros [].
  - rewrite trace_bind. intros Hin. apply in_app_or in Hin.
    destruct Hin as [Hin | Hin].
    + exists x. split; [left; reflexivity | exact Hin].
    + destruct (outcome (p x)) as [[|] | msg]; cbn in Hin; try contradiction.
      destruct (IH Hin) as (y & Hy & He). exists y. split; [right; exact Hy | exact He].
Qed.

(** [X5] The scan stops at the first account that authorizes: the
    accounts listed after an authorizing account change neither the
    outcome nor the calls made. *)
Theorem verifyTxRequest_stops_at_match
    lib requestToken appDomain tx txVersion before account after :
  decodeToken lib requestToken = Ok tx ->
  getTransactionVersionFromRequest lib tx = Ok txVersion ->
  authorizes lib (publicKey tx) (stxAddress tx) txVersion appDomain account ->
  verifyTxRequest lib requestToken {| accounts := before ++ account :: after |} appDomain
  = verifyTxRequest lib requestToken {| accounts := before ++ [account] |} appDomain.
Proof.
  intros Hdec Hv Hauth. unfold verifyTxRequest.
  rewrite Hdec, !bind_call_Ok, Hv, !bind_lift_Ok.
  destruct (new_TokenVerifier lib "ES256k" (publicKey tx)) as [vf | msg]; [| reflexivity].
  rewrite !bind_call_Ok.
  destruct (verifyAsync lib vf requestToken) as [[|] | msg]; try reflexivity.
  rewrite !bind_call_Ok. cbn [negb accounts].
  rewrite find_stops; [reflexivity |].
  rewrite accountMatches_outcome. f_equal. apply account_ok_authorizes. exact Hauth.
Qed.

Lemma verifyTxRequest_stops_at_match_witness :
  verifyTxRequest (Sample.verifier_lib Sample.request_bob) "token"
    {| accounts := [Sample.alice] ++ Sample.bob :: [carol; Sample.alice] |} Sample.domain
  = verifyTxRequest (Sample.verifier_lib Sample.request_bob) "token"
      {| accounts := [Sample.alice] ++ [Sample.bob] |} Sample.domain.
Proof.
  apply (verifyTxRequest_stops_at_match (Sample.verifier_lib Sample.request_bob) "token"
           Sample.domain Sample.request_bob 128%Z [Sample.alice] Sample.bob
           [carol; Sample.alice]).
  - reflexivity.
  - reflexivity.
  - split; [reflexivity | intros _; reflexivity].
Defined.

(** The address derivations of one callback run. *)
Lemma accountMatches_address_event lib publicKey stxAddress txVersion appDomain account k v :
  In (EvGetAddressFromPrivateKey k v)
     (trace (accountMatches lib publicKey stxAddress txVersion appDomain account)) ->
  truthy_str stxAddress = true /\ v = txVersion /\ k = stxPrivateKey account
  /\ Some (appPublicKey lib appDomain account) = publicKey.
Proof.
  unfold accountMatches, appPublicKey. rewrite !bind_call_Ok. cbn [trace fst].
  intros [Hin | [Hin | Hin]]; try discriminate.
  destruct (key_differs _ publicKey) eqn:Hk; [contradiction |].
  destruct (truthy_str stxAddress); cbn [negb] in Hin; [| contradiction].
  rewrite ?bind_call_Ok in Hin. cbn [trace fst] in Hin.
  destruct Hin as [Hin | Hin].
  - injection Hin as <- <-. repeat split; try reflexivity.
    apply key_differs_false. exact Hk.
  - destruct (key_differs _ stxAddress); contradiction.
Qed.

(** [X6] An address is derived only when the payload declares a target
    address, only under the resolved network version, and only from the
    private key of an account of the wallet whose app public key is the
    signer key of the payload. *)
Theorem verifyTxRequest_address_derivations
    lib requestToken wallet appDomain tx privateKey v :
  decodeToken lib requestToken = Ok tx ->
  In (EvGetAddressFromPrivateKey privateKey v)
     (trace (verifyTxRequest lib requestToken wallet appDomain)) ->
  truthy_str (stxAddress tx) = true
  /\ getTransactionVersionFromRequest lib tx = Ok v
  /\ exists account,
       In account (accounts wallet)
       /\ stxPrivateKey account = privateKey
       /\ Some (appPublicKey lib appDomain account) = publicKey tx.
Proof.
  intros Hdec. unfold verifyTxRequest. rewrite Hdec, bind_call_Ok. cbn [trace fst].
  intros [Hin | Hin]; [discriminate |].
  destruct (getTransactionVersionFromRequest lib tx) as [txVersion | msg].
  2:{ cbn in Hin. contradiction. }
  rewrite bind_lift_Ok in Hin.
  destruct (new_TokenVerifier lib "ES256k" (publicKey tx)) as [vf | msg].
  2:{ cbn in Hin. absurd_in Hin. }
  rewrite bind_call_Ok in Hin. cbn [trace fst] in Hin.
  destruct Hin as [Hin | Hin]; [discriminate |].
  destruct (verifyAsync lib vf requestToken) as [[|] | msg].
  - rewrite bind_call_Ok in Hin. cbn [trace fst negb] in Hin.
    destruct Hin as [Hin | Hin]; [discriminate |].
    rewrite trace_bind in Hin. apply in_app_or in Hin. destruct Hin as [Hin | Hin].
    + apply find_trace_In in Hin. destruct Hin as (account & Hacc & He).
      apply accountMatches_address_event in He.
      destruct He as (Ht & -> & -> & Hkey).
      repeat split; try assumption.
      exists account. repeat split; assumption.
    + destruct (outcome _) as [[a |] | msg]; cbn in Hin; contradiction.
  - rewrite bind_call_Ok in Hin. cbn in Hin. absurd_in Hin.
  - cbn in Hin. absurd_in Hin.
Qed.

Lemma verifyTxRequest_address_derivations_witness :
  truthy_str (stxAddress Sample.request_bob) = true
  /\ getTransactionVersionFromRequest (Sample.verifier_lib Sample.request_bob)
       Sample.request_bob = Ok 128%Z
  /\ exists account,
       In account (accounts Sample.wallet)
       /\ stxPrivateKey account = "k-bob"
       /\ Some (appPublicKey (Sample.verifier_lib Sample.request_bob) Sample.domain account)
          = publicKey Sample.request_bob.
Proof.
  apply (verifyTxRequest_address_derivations (Sample.verifier_lib Sample.request_bob)
           "token" Sample.wallet Sample.domain Sample.request_bob "k-bob" 128%Z).
  - reflexivity.
  - cbn. do 7 right. left. reflexivity.
Defined.

(** [X7] A payload without a signer public key is never authorized,
    whatever the wallet. *)
Theorem verifyTxRequest_needs_publicKey lib requestToken wallet appDomain tx :
  decodeToken lib requestToken = Ok tx ->
  publicKey tx = None ->
  exists msg, outcome (verifyTxRequest lib requestToken wallet appDomain) = Throw msg.
Proof.
  intros Hdec Hpk.
  destruct (outcome (verifyTxRequest lib requestToken wallet appDomain)) as [v | msg] eqn:Hout.
  - exfalso. rewrite verifyTxRequest_outcome in Hout. apply verify_outcome_iff in Hout.
    destruct Hout as (txVersion & vf & account & Hd & _ & _ & _ & _ & Hkey & _).
    assert (v = tx) as -> by congruence.
    rewrite Hpk in Hkey. discriminate Hkey.
  - exists msg. reflexivity.
Qed.

Lemma verifyTxRequest_needs_publicKey_witness :
  exists msg,
    outcome (verifyTxRequest (Sample.verifier_lib keyless_payload)
               "token" Sample.wallet Sample.domain) = Throw msg.
Proof.
  apply (verifyTxRequest_needs_publicKey (Sample.verifier_lib keyless_payload)
           "token" Sample.wallet Sample.domain keyless_payload); reflexivity.
Defined.

(** [X8] Every address derivation of [verifyTxRequest] asks for the
    Mainnet or for the Testnet version, whatever the token holds. *)
Theorem verifyTxRequest_derives_known_versions lib requestToken wallet appDomain :
  Forall (fun e => forall v, derivation_version e = Some v ->
                     v = TransactionVersion_Mainnet lib
                     \/ v = TransactionVersion_Testnet lib)
    (trace (verifyTxRequest lib requestToken wallet appDomain)).
Proof.
  destruct (decodeToken lib requestToken) as [tx | msg] eqn:Hdec.
  2:{ unfold verifyTxRequest. rewrite Hdec. cbn.
      constructor; [intros v; discriminate | constructor]. }
  destruct (getTransactionVersionFromRequest lib tx) as [txVersion | msg] eqn:Hv.
  2:{ unfold verifyTxRequest. rewrite Hdec, bind_call_Ok, Hv. cbn.
      constructor; [intros v; discriminate | constructor]. }
  eapply Forall_impl; [| apply (verifyTxRequest_derivations _ _ _ _ _ _ Hdec Hv)].
  intros e He v Hd. rewrite (He v Hd).
  unfold getTransactionVersionFromRequest, known_version in Hv.
  destruct (network tx) as [net |].
  - cbn [existsb] in Hv.
    destruct (Z.eqb_spec (version net) (TransactionVersion_Mainnet lib)) as [E1 | _].
    + cbn in Hv. injection Hv as <-. left. exact E1.
    + destruct (Z.eqb_spec (version net) (TransactionVersion_Testnet lib)) as [E2 | _].
      * cbn in Hv. injection Hv as <-. right. exact E2.
      * cbn in Hv. discriminate Hv.
  - injection Hv as <-. left. reflexivity.
Qed.

End VerifyMore.

(* ================================================================== *)
(** ** Construction: what reaches the constructors *)
(* ================================================================== *)

Module BuildMore.
Import Tx Rules Obs EffFacts BuildFacts.

(** The run of each construction path: it throws before any call, or it
    makes the one call of its constructor with options computed from the
    payload, and its outcome is the constructor's. *)
Lemma generateContractCallTx_run lib txData senderKey nonce :
  (exists msg, generateContractCallTx lib txData senderKey nonce = ([], Throw msg))
  \/ (exists args n pcs,
        map_result (fun arg => deserializeCV lib (from_hex arg)) (functionArgs txData) = Ok args
        /\ nonce_BN lib nonce = Ok n
        /\ getPostConditions lib (postConditions txData) = Ok pcs
        /\ generateContractCallTx lib txData senderKey nonce
           = ([EvMakeContractCall
                 {| cc_contractName := contractName txData;
                    cc_contractAddress := contractAddress txData;
                    cc_functionName := functionName txData;
                    cc_senderKey := senderKey;
                    cc_functionArgs := args;
                    cc_nonce := n;
                    cc_postConditionMode := postConditionMode txData;
                    cc_postConditions := pcs;
                    cc_network := network txData |}],
              makeContractCall lib
                {| cc_contractName := contractName txData;
                   cc_contractAddress := contractAddress txData;
                   cc_functionName := functionName txData;
                   cc_senderKey := senderKey;
                   cc_functionArgs := args;
                   cc_nonce := n;
                   cc_postConditionMode := postConditionMode txData;
                   cc_postConditions := pcs;
                   cc_network := network txData |})).
Proof.
  unfold generateContractCallTx. rewrite bind_lift.
  destruct (map_result _ (functionArgs txData)) as [args | msg]; [| left; eexists; reflexivity].
  rewrite bind_lift.
  destruct (nonce_BN lib nonce) as [n | msg]; [| left; eexists; reflexivity].
  rewrite bind_lift.
  destruct (getPostConditions lib _) as [pcs | msg]; [| left; eexists; reflexivity].
  right. exists args, n, pcs. repeat split; reflexivity.
Qed.

Lemma generateContractDeployTx_run lib txData senderKey nonce :
  (exists msg, generateContractDeployTx lib txData senderKey nonce = ([], Throw msg))
  \/ (exists n pcs,
        nonce_BN lib nonce = Ok n
        /\ getPostConditions lib (postConditions txData) = Ok pcs
        /\ generateContractDeployTx lib txData senderKey nonce
           = ([EvMakeContractDeploy
                 {| cd_contractName := contractName txData;
                    cd_codeBody := codeBody txData;
                    cd_nonce := n;
                    cd_senderKey := senderKey;
                    cd_postConditionMode := postConditionMode txData;
                    cd_postConditions := pcs;
                    cd_network := network txData |}],
              makeContractDeploy lib
                {| cd_contractName := contractName txData;
                   cd_codeBody := codeBody txData;
                   cd_nonce := n;
                   cd_senderKey := senderKey;
                   cd_postConditionMode := postConditionMode txData;
                   cd_postConditions := pcs;
                   cd_network := network txData |})).
Proof.
  unfold generateContractDeployTx. rewrite bind_lift.
  destruct (nonce_BN lib nonce) as [n | msg]; [| left; eexists; reflexivity].
  rewrite bind_lift.
  destruct (getPostConditions lib _) as [pcs | msg]; [| left; eexists; reflexivity].
  right. exists n, pcs. repeat split; reflexivity.
Qed.

Lemma generateSTXTransferTx_run lib txData senderKey nonce :
  (exists msg, generateSTXTransferTx lib txData senderKey nonce = ([], Throw msg))
  \/ (exists a n,
        new_BN lib (JsStr (amount txData)) None = Ok a
        /\ nonce_BN lib nonce = Ok n
        /\ generateSTXTransferTx lib txData senderKey nonce
           = ([EvMakeSTXTokenTransfer
                 {| tt_recipient := recipient txData;
                    tt_memo := memo txData;
                    tt_senderKey := senderKey;
                    tt_amount := a;
                    tt_nonce := n;
                    tt_network := network txData |}],
              makeSTXTokenTransfer lib
                {| tt_recipient := recipient txData;
                   tt_memo := memo txData;
                   tt_senderKey := senderKey;
                   tt_amount := a;
                   tt_nonce := n;
                   tt_network := network txData |})).
Proof.
  unfold generateSTXTransferTx. rewrite bind_lift.
  destruct (new_BN lib _ None) as [a | msg]; [| left; eexists; reflexivity].
  rewrite bind_lift.
  destruct (nonce_BN lib nonce) as [n | msg]; [| left; eexists; reflexivity].
  right. exists a, n. repeat split; reflexivity.
Qed.

(** The shape of every dispatch: no call and a throw, or one construction
    call carrying the sender key and the converted nonce, whose answer is
    the outcome. *)
Lemma dispatch_run lib txData senderKey nonce :
  (exists msg, dispatch lib txData senderKey nonce = ([], Throw msg))
  \/ (exists e r,
        dispatch lib txData senderKey nonce = ([e], r)
        /\ construction_result lib e = Some r
        /\ construction_senderKey e = Some senderKey
        /\ exists n, construction_nonce e = Some n /\ nonce_BN lib nonce = Ok n).
Proof.
  rewrite dispatch_cases.
  destruct (String.eqb _ (TransactionTypes_ContractCall lib)).
  { destruct (generateContractCallTx_run lib txData senderKey nonce)
      as [[msg H] | (args & n & pcs & _ & Hn & _ & H)]; rewrite H.
    - left. exists msg. reflexivity.
    - right. do 2 eexists. repeat split. exists n. split; [reflexivity | exact Hn]. }
  destruct (String.eqb _ (TransactionTypes_ContractDeploy lib)).
  { destruct (generateContractDeployTx_run lib txData senderKey nonce)
      as [[msg H] | (n & pcs & Hn & _ & H)]; rewrite H.
    - left. exists msg. reflexivity.
    - right. do 2 eexists. repeat split. exists n. split; [reflexivity | exact Hn]. }
  destruct (String.eqb _ (TransactionTypes_STXTransfer lib)).
  { destruct (generateSTXTransferTx_run lib txData senderKey nonce)
      as [[msg H] | (a & n & _ & Hn & H)]; rewrite H.
    - left. exists msg. reflexivity.
    - right. do 2 eexists. repeat split. exists n. split; [reflexivity | exact Hn]. }
  left. eexists. reflexivity.
Qed.

(** [X9] [generateTransaction] calls a constructor at most once.  When it
    returns a transaction, it made exactly one construction call and the
    transaction is what that constructor answered; when it made no call,
    it threw. *)
Theorem generateTransaction_one_construction lib txData senderKey nonce :
  List.length (trace (snd (generateTransaction lib txData senderKey nonce))) <= 1
  /\ (forall tx,
        outcome (snd (generateTransaction lib txData senderKey nonce)) = Ok tx ->
        exists e,
          trace (snd (generateTransaction lib txData senderKey nonce)) = [e]
          /\ construction_result lib e = Some (Ok tx))
  /\ (trace (snd (generateTransaction lib txData senderKey nonce)) = [] ->
        exists msg,
          outcome (snd (generateTransaction lib txData senderKey nonce)) = Throw msg).
Proof.
  unfold generateTransaction. cbn [snd].
  destruct (dispatch_run lib (resolveNetwork lib txData) senderKey nonce)
    as [[msg H] | (e & r & H & Hr & _)]; rewrite H; cbn [trace outcome fst snd List.length].
  - split; [lia | split; [discriminate |] ]. intros _. exists msg. reflexivity.
  - split; [lia | split; [| discriminate] ].
    intros tx ->. exists e. split; [reflexivity | exact Hr].
Qed.

Lemma generateTransaction_one_construction_witness :
  exists e,
    trace (snd (generateTransaction strict_lib call_payload "sender-key" (Some 4%Z))) = [e]
    /\ construction_result strict_lib e = Some (Ok Sample.signed_tx).
Proof.
  apply (proj1 (proj2 (generateTransaction_one_construction strict_lib call_payload
                         "sender-key" (Some 4%Z)))).
  reflexivity.
Defined.

(** [X10] Every construction call of [generateTransaction] carries the
    sender key it was given and, as nonce, the big integer made of the
    given nonce in base 10; with no nonce given, the call carries none. *)
Theorem generateTransaction_senderKey_and_nonce lib txData senderKey nonce :
  Forall (fun e =>
            construction_senderKey e = Some senderKey
            /\ exists n, construction_nonce e = Some n
                         /\ nonce_BN lib nonce = Ok n
                         /\ (nonce = None -> n = None)
                         /\ (forall z, nonce = Some z ->
                               exists b, new_BN lib (JsNum z) (Some 10%Z) = Ok b
                                         /\ n = Some b))
    (trace (snd (generateTransaction lib txData senderKey nonce))).
Proof.
  unfold generateTransaction. cbn [snd].
  destruct (dispatch_run lib (resolveNetwork lib txData) senderKey nonce)
    as [[msg H] | (e & r & H & _ & Hk & n & Hn & Hbn)]; rewrite H; cbn [trace fst].
  - constructor.
  - constructor; [| constructor]. split; [exact Hk |].
    exists n. split; [exact Hn | split; [exact Hbn | split] ].
    + intros ->. cbn in Hbn. congruence.
    + intros z ->. cbn [nonce_BN] in Hbn.
      destruct (new_BN lib (JsNum z) (Some 10%Z)) as [b | msg]; cbn [rbind] in Hbn;
        [| discriminate].
      exists b. split; [reflexivity | congruence].
Qed.

Lemma set_network_same txData net :
  network txData = Some net -> set_network txData net = txData.
Proof. destruct txData; cbn. intros ->. reflexivity. Qed.

(** The payload after network resolution differs at most in its network. *)
Lemma resolveNetwork_set lib txData :
  exists net, resolveNetwork lib txData = set_network txData net.
Proof.
  unfold resolveNetwork, has_fee_estimate.
  destruct (network txData) as [net |] eqn:Hnet; cbn [negb].
  - destruct (getTransferFeeEstimateApiUrl net); cbn [negb].
    + exists net. symmetry. apply set_network_same. exact Hnet.
    + eexists. reflexivity.
  - eexists. reflexivity.
Qed.

(** [X11] A [makeContractCall] call made by [generateTransaction] belongs
    to a payload tagged ContractCall and carries its contract address,
    contract name, function name and post-condition mode, one Clarity
    value per hex argument, in order, each deserialized from the decoded
    bytes of its argument, and the normalized post-conditions. *)
Theorem generateTransaction_contract_call_options lib txData senderKey nonce opts :
  In (EvMakeContractCall opts) (trace (snd (generateTransaction lib txData senderKey nonce))) ->
  txType txData = TransactionTypes_ContractCall lib
  /\ Forall2 (fun arg cv => deserializeCV lib (from_hex arg) = Ok cv)
       (functionArgs txData) (cc_functionArgs opts)
  /\ getPostConditions lib (postConditions txData) = Ok (cc_postConditions opts)
  /\ cc_contractAddress opts = contractAddress txData
  /\ cc_contractName opts = contractName txData
  /\ cc_functionName opts = functionName txData
  /\ cc_postConditionMode opts = postConditionMode txData.
Proof.
  unfold generateTransaction. cbn [snd]. rewrite dispatch_cases, txType_resolveNetwork.
  destruct (resolveNetwork_set lib txData) as [net ->].
  destruct (String.eqb_spec (txType txData) (TransactionTypes_ContractCall lib)) as [E | _].
  { destruct (generateContractCallTx_run lib (set_network txData net) senderKey nonce)
      as [[msg H] | (args & n & pcs & Ha & _ & Hp & H)]; rewrite H; cbn [trace fst].
    - intros [].
    - intros [Hin | []]. injection Hin as <-. cbn in *.
      repeat split; try assumption; try reflexivity.
      apply map_result_Forall2 in Ha. exact Ha. }
  destruct (String.eqb _ (TransactionTypes_ContractDeploy lib)).
  { destruct (generateContractDeployTx_run lib (set_network txData net) senderKey nonce)
      as [[msg H] | (n & pcs & _ & _ & H)]; rewrite H; cbn [trace fst].
    - intros [].
    - intros [Hin | []]. discriminate Hin. }
  destruct (String.eqb _ (TransactionTypes_STXTransfer lib)).
  { destruct (generateSTXTransferTx_run lib (set_network txData net) senderKey nonce)
      as [[msg H] | (a & n & _ & _ & H)]; rewrite H; cbn [trace fst].
    - intros [].
    - intros [Hin | []]. discriminate Hin. }
  intros [].
Qed.

Lemma generateTransaction_contract_call_options_witness :
  Forall2 (fun arg cv => deserializeCV strict_lib (from_hex arg) = Ok cv)
    ["0100"; "0c00"] [JsStr "0100"; JsStr "0c00"].
Proof.
  apply (generateTransaction_contract_call_options strict_lib call_payload
           "sender-key" (Some 4%Z)
           {| cc_contractName := "counter";
              cc_contractAddress := "ST1PQHQKV0RJXZFY1DGX8MNSNYVE3VGZJSRTPGZGM";
              cc_functionName := "increment";
              cc_senderKey := "sender-key";
              cc_functionArgs := [JsStr "0100"; JsStr "0c00"];
              cc_nonce := Some 4%Z;
              cc_postConditionMode := Some 1%Z;
              cc_postConditions :=
                Some [ [("serialized", JsStr "0001ab"); ("offset", JsNum 0)];
                       [("type", JsNum 1); ("amount", JsBN 255);
                        ("conditionCode", JsNum 3)] ];
              cc_network := Some Sample.testnet |}).
  cbn. left. reflexivity.
Defined.

(** [X12] A [makeSTXTokenTransfer] call made by [generateTransaction]
    belongs to a payload tagged STXTransfer (a tag that is neither of the
    other two) and carries its recipient and memo and, as amount, the big
    integer made of the payload's amount string with no base given. *)
Theorem generateTransaction_token_transfer_options lib txData senderKey nonce opts :
  In (EvMakeSTXTokenTransfer opts)
     (trace (snd (generateTransaction lib txData senderKey nonce))) ->
  txType txData = TransactionTypes_STXTransfer lib
  /\ txType txData <> TransactionTypes_ContractCall lib
  /\ txType txData <> TransactionTypes_ContractDeploy lib
  /\ new_BN lib (JsStr (amount txData)) None = Ok (tt_amount opts)
  /\ tt_recipient opts = recipient txData
  /\ tt_memo opts = memo txData.
Proof.
  unfold generateTransaction. cbn [snd]. rewrite dispatch_cases, txType_resolveNetwork.
  destruct (resolveNetwork_set lib txData) as [net ->].
  destruct (String.eqb_spec (txType txData) (TransactionTypes_ContractCall lib)) as [_ | N1].
  { destruct (generateContractCallTx_run lib (set_network txData net) senderKey nonce)
      as [[msg H] | (args & n & pcs & _ & _ & _ & H)]; rewrite H; cbn [trace fst].
    - intros [].
    - intros [Hin | []]. discriminate Hin. }
  destruct (String.eqb_spec (txType txData) (TransactionTypes_ContractDeploy lib)) as [_ | N2].
  { destruct (generateContractDeployTx_run lib (set_network txData net) senderKey nonce)
      as [[msg H] | (n & pcs & _ & _ & H)]; rewrite H; cbn [trace fst].
    - intros [].
    - intros [Hin | []]. discriminate Hin. }
  destruct (String.eqb_spec (txType txData) (TransactionTypes_STXTransfer lib)) as [E | _].
  { destruct (generateSTXTransferTx_run lib (set_network txData net) senderKey nonce)
      as [[msg H] | (a & n & Ha & _ & H)]; rewrite H; cbn [trace fst].
    - intros [].
    - intros [Hin | []]. injection Hin as <-. cbn in *.
      repeat split; try assumption; reflexivity. }
  intros [].
Qed.

Lemma generateTransaction_token_transfer_options_witness :
  new_BN (Sample.node_lib Sample.rejected) (JsStr "1000") None = Ok 1000%Z.
Proof.
  apply (generateTransaction_token_transfer_options (Sample.node_lib Sample.rejected)
           (Sample.payload None None) "sender-key" None
           {| tt_recipient := "SP2J6ZY48GV1EZ5V2V5RB9MP66SW86PYKKNRV9EJ7";
              tt_memo := None; tt_senderKey := "sender-key"; tt_amount := 1000%Z;
              tt_nonce := None; tt_network := Some Sample.testnet |}).
  cbn. left. reflexivity.
Defined.

(** [X13] A decoding failure aborts construction before any constructor is
    called.  For a ContractCall payload, a function argument that does not
    deserialize makes [generateTransaction] throw that very error; for a
    ContractCall or ContractDeploy payload, post-conditions that do not
    normalize make it throw with no call made. *)
Theorem generateTransaction_decode_errors lib txData senderKey nonce msg :
  (txType txData = TransactionTypes_ContractCall lib ->
   map_result (fun arg => deserializeCV lib (from_hex arg)) (functionArgs txData)
     = Throw msg ->
   snd (generateTransaction lib txData senderKey nonce) = ([], Throw msg))
  /\ (txType txData = TransactionTypes_ContractCall lib
      \/ txType txData = TransactionTypes_ContractDeploy lib ->
      getPostConditions lib (postConditions txData) = Throw msg ->
      exists msg', snd (generateTransaction lib txData senderKey nonce) = ([], Throw msg')).
Proof.
  unfold generateTransaction. cbn [snd]. rewrite dispatch_cases, txType_resolveNetwork.
  destruct (resolveNetwork_set lib txData) as [net ->].
  split.
  - intros E Hargs. rewrite E, String.eqb_refl.
    unfold generateContractCallTx. cbn [functionArgs set_network].
    rewrite Hargs. reflexivity.
  - intros Htag Hpcs.
    destruct (String.eqb_spec (txType txData) (TransactionTypes_ContractCall lib)) as [_ | N1].
    + destruct (generateContractCallTx_run lib (set_network txData net) senderKey nonce)
        as [[m H] | (args & n & pcs & _ & _ & Hp & _)].
      * exists m. exact H.
      * cbn in Hp. congruence.
    + destruct Htag as [E | E]; [contradiction |].
      rewrite E, String.eqb_refl.
      destruct (generateContractDeployTx_run lib (set_network txData net) senderKey nonce)
        as [[m H] | (n & pcs & _ & Hp & _)].
      * exists m. exact H.
      * cbn in Hp. congruence.
Qed.

Lemma generateTransaction_decode_errors_witness :
  snd (generateTransaction strict_lib bad_args_payload "sender-key" None)
  = ([], Throw "Could not read clarity value").
Proof.
  apply (proj1 (generateTransaction_decode_errors strict_lib bad_args_payload
                  "sender-key" None "Could not read clarity value")); reflexivity.
Defined.

(** [X14] [generateTransaction] leaves the payload with a network and
    touches nothing else: the payload after the call is the payload before
    with some network assigned. *)
Theorem generateTransaction_payload_after lib txData senderKey nonce :
  exists net,
    fst (generateTransaction lib txData senderKey nonce) = set_network txData net
    /\ network (fst (generateTransaction lib txData senderKey nonce)) = Some net.
Proof.
  unfold generateTransaction. cbn [fst].
  destruct (resolveNetwork_set lib txData) as [net ->].
  exists net. split; reflexivity.
Qed.

(** [X15] When the default network objects have a fee-estimate method,
    the payload left by [generateTransaction] is stable: a second call, with
    any key and nonce, leaves it as it is. *)
Theorem generateTransaction_payload_stable lib txData senderKey nonce senderKey' nonce' :
  getTransferFeeEstimateApiUrl (new_StacksMainnet lib) <> None ->
  getTransferFeeEstimateApiUrl (new_StacksTestnet lib) <> None ->
  fst (generateTransaction lib (fst (generateTransaction lib txData senderKey nonce))
         senderKey' nonce')
  = fst (generateTransaction lib txData senderKey nonce).
Proof.
  intros Hm Ht. unfold generateTransaction. cbn [fst].
  assert (Hfee : has_fee_estimate (network (resolveNetwork lib txData)) = true).
  { unfold resolveNetwork.
    destruct (has_fee_estimate (network txData)) eqn:Hf; cbn [negb]; [exact Hf |].
    destruct (is_mainnet lib (network txData)); cbn [network set_network has_fee_estimate].
    - destruct (getTransferFeeEstimateApiUrl (new_StacksMainnet lib)); congruence.
    - destruct (getTransferFeeEstimateApiUrl (new_StacksTestnet lib)); congruence. }
  unfold resolveNetwork at 1. rewrite Hfee. reflexivity.
Qed.

Lemma generateTransaction_payload_stable_witness :
  fst (generateTransaction (Sample.node_lib Sample.rejected)
         (fst (generateTransaction (Sample.node_lib Sample.rejected)
                 (Sample.payload (Some (Sample.bare 0)) None) "sender-key" None))
         "other-key" (Some 9%Z))
  = fst (generateTransaction (Sample.node_lib Sample.rejected)
           (Sample.payload (Some (Sample.bare 0)) None) "sender-key" None).
Proof.
  apply (generateTransaction_payload_stable (Sample.node_lib Sample.rejected)
           (Sample.payload (Some (Sample.bare 0)) None) "sender-key" None
           "other-key" (Some 9%Z)); discriminate.
Defined.

Lemma resolveNetwork_with_postConditions lib txData mode pcs :
  resolveNetwork lib (with_postConditions txData mode pcs)
  = with_postConditions (resolveNetwork lib txData) mode pcs.
Proof.
  unfold resolveNetwork. cbn [network with_postConditions].
  destruct (negb _); reflexivity.
Qed.

(** [X16] A token transfer ignores post-conditions: for a payload tagged
    STXTransfer (a tag distinct from the other two), the run of
    [generateTransaction] is the same whatever the payload's post-conditions
    and post-condition mode are, malformed ones included. *)
Theorem generateTransaction_transfer_ignores_postConditions
    lib txData senderKey nonce mode pcs :
  txType txData = TransactionTypes_STXTransfer lib ->
  TransactionTypes_STXTransfer lib <> TransactionTypes_ContractCall lib ->
  TransactionTypes_STXTransfer lib <> TransactionTypes_ContractDeploy lib ->
  snd (generateTransaction lib (with_postConditions txData mode pcs) senderKey nonce)
  = snd (generateTransaction lib txData senderKey nonce).
Proof.
  intros E N1 N2. unfold generateTransaction. cbn [snd].
  rewrite resolveNetwork_with_postConditions, !dispatch_cases.
  cbn [txType with_postConditions]. rewrite txType_resolveNetwork, E.
  apply String.eqb_neq in N1, N2. rewrite N1, N2, String.eqb_refl.
  reflexivity.
Qed.

Lemma generateTransaction_transfer_ignores_postConditions_witness :
  snd (generateTransaction (Sample.node_lib Sample.rejected)
         (with_postConditions (Sample.payload None None) (Some 2%Z)
            (Some [PcHex EmptyString; PcObj [("amount", JsStr "not hex")]]))
         "sender-key" None)
  = snd (generateTransaction (Sample.node_lib Sample.rejected)
           (Sample.payload None None) "sender-key" None).
Proof.
  apply (generateTransaction_transfer_ignores_postConditions
           (Sample.node_lib Sample.rejected) (Sample.payload None None) "sender-key" None
           (Some 2%Z) (Some [PcHex EmptyString; PcObj [("amount", JsStr "not hex")]]));
    [reflexivity | discriminate | discriminate].
Defined.

(** The same post-conditions make a contract call fail. *)
Example contract_call_refuses_bad_postConditions :
  snd (generateTransaction (Sample.node_lib Sample.rejected)
         (with_postConditions call_payload (Some 2%Z)
            (Some [PcHex EmptyString; PcObj [("amount", JsStr "not hex")]]))
         "sender-key" None)
  = ([], Throw "Could not read post condition").
Proof. reflexivity. Qed.

Lemma map_result_length {A B} (f : A -> Result B) (xs : list A) (ys : list B) :
  map_result f xs = Ok ys -> List.length ys = List.length xs.
Proof.
  intros H. apply map_result_Forall2 in H.
  induction H; cbn [List.length]; [reflexivity | congruence].
Qed.

Lemma map_result_first_error {A B} (f : A -> Result B)
    (before after : list A) (x : A) (ys : list B) (msg : string) :
  map_result f before = Ok ys ->
  f x = Throw msg ->
  map_result f (before ++ x :: after) = Throw msg.
Proof.
  revert ys. induction before as [| b before IH]; intros ys Hb Hx; cbn [app map_result].
  - rewrite Hx. reflexivity.
  - cbn [map_result] in Hb.
    destruct (f b) as [y | m]; cbn [rbind] in *; [| discriminate].
    destruct (map_result f before) as [ys' | m] eqn:Hrest; cbn [rbind] in Hb;
      [| discriminate].
    rewrite (IH ys' eq_refl Hx). reflexivity.
Qed.

(** [X17] Normalization returns one post-condition per entry.  When an
    entry fails and the entries before it normalize, the error thrown is
    that entry's, whatever follows it. *)
Theorem getPostConditions_length_and_first_error lib :
  (forall entries out,
      getPostConditions lib (Some entries) = Ok (Some out) ->
      List.length out = List.length entries)
  /\ (forall before entry after pcs msg,
        map_result (normalizePostCondition lib) before = Ok pcs ->
        normalizePostCondition lib entry = Throw msg ->
        getPostConditions lib (Some (before ++ entry :: after)) = Throw msg).
Proof.
  split.
  - intros entries out. unfold getPostConditions.
    destruct (map_result (normalizePostCondition lib) entries) as [pcs | msg] eqn:Hm;
      cbn [rbind]; [| discriminate].
    intros H. injection H as <-. apply (map_result_length _ _ _ Hm).
  - intros before entry after pcs msg Hb He. unfold getPostConditions.
    rewrite (map_result_first_error _ _ _ _ _ _ Hb He). reflexivity.
Qed.

Lemma getPostConditions_length_and_first_error_witness :
  getPostConditions (Sample.node_lib Sample.rejected)
    (Some ([PcObj Sample.hex_amount] ++ PcObj [("amount", JsStr "not hex")]
             :: [PcHex EmptyString]))
  = Throw "Invalid character".
Proof.
  apply (proj2 (getPostConditions_length_and_first_error (Sample.node_lib Sample.rejected))
           [PcObj Sample.hex_amount] (PcObj [("amount", JsStr "not hex")])
           [PcHex EmptyString]
           [ [("type", JsNum 1); ("amount", JsBN 255); ("conditionCode", JsNum 3)] ]
           "Invalid character"); reflexivity.
Defined.

Lemma map_fst_spread_set fields k v :
  has_key k fields = true -> map fst (spread_set fields k v) = map fst fields.
Proof.
  unfold has_key. induction fields as [| [k0 v0] rest IH]; cbn [lookup spread_set map fst].
  - discriminate.
  - destruct (String.eqb k k0) eqn:E; cbn [map fst]; [reflexivity |].
    intros H. rewrite (IH H). reflexivity.
Qed.

(** [X18] Normalizing a structured post-condition neither adds, removes
    nor reorders its fields, and changes no field other than [amount]: the
    result is the object itself, or the object with its [amount] turned into
    a big integer. *)
Theorem normalizePostCondition_keeps_fields lib fields pc :
  normalizePostCondition lib (PcObj fields) = Ok pc ->
  map fst pc = map fst fields
  /\ (forall k, k <> "amount" -> lookup k pc = lookup k fields)
  /\ (pc = fields \/ exists a, lookup "amount" pc = Some (JsBN a)).
Proof.
  cbn [normalizePostCondition].
  destruct (has_key "amount" fields) eqn:Hk; cbn [andb].
  - destruct (truthy (get "amount" fields)).
    + destruct (new_BN lib (get "amount" fields) (Some 16%Z)) as [a | msg]; cbn [rbind];
        [| discriminate].
      intros H. injection H as <-. split; [| split].
      * apply map_fst_spread_set. exact Hk.
      * intros k Hne. rewrite lookup_spread_set.
        apply String.eqb_neq in Hne. rewrite Hne. reflexivity.
      * right. exists a. rewrite lookup_spread_set, String.eqb_refl. reflexivity.
    + intros H. injection H as <-. repeat split. left. reflexivity.
  - intros H. injection H as <-. repeat split. left. reflexivity.
Qed.

Lemma normalizePostCondition_keeps_fields_witness :
  map fst [("type", JsNum 1); ("amount", JsBN 255); ("conditionCode", JsNum 3)]
  = map fst Sample.hex_amount.
Proof.
  apply (normalizePostCondition_keeps_fields (Sample.node_lib Sample.rejected)
           Sample.hex_amount
           [("type", JsNum 1); ("amount", JsBN 255); ("conditionCode", JsNum 3)]).
  reflexivity.
Defined.

(** [X19] For a payload that carries a network descriptor of a known
    version, builder and verifier agree: provided the default mainnet and
    testnet objects have the Mainnet and Testnet version tags, the network
    that [generateTransaction] leaves in the payload has the version that
    [getTransactionVersionFromRequest] resolves. *)
Theorem builder_and_verifier_agree_on_version lib txData senderKey nonce net v :
  version (new_StacksMainnet lib) = TransactionVersion_Mainnet lib ->
  version (new_StacksTestnet lib) = TransactionVersion_Testnet lib ->
  network txData = Some net ->
  getTransactionVersionFromRequest lib txData = Ok v ->
  exists net',
    network (fst (generateTransaction lib txData senderKey nonce)) = Some net'
    /\ version net' = v.
Proof.
  intros Hm Ht Hnet Hv.
  unfold getTransactionVersionFromRequest, known_version in Hv. rewrite Hnet in Hv.
  cbn [existsb] in Hv.
  unfold generateTransaction, resolveNetwork, has_fee_estimate, is_mainnet. cbn [fst].
  rewrite Hnet.
  destruct (Z.eqb_spec (version net) (TransactionVersion_Mainnet lib)) as [E1 | N1].
  - cbn in Hv. injection Hv as <-.
    destruct (getTransferFeeEstimateApiUrl net); cbn [negb].
    + exists net. split; [exact Hnet | reflexivity].
    + eexists. split; [reflexivity | congruence].
  - destruct (Z.eqb_spec (version net) (TransactionVersion_Testnet lib)) as [E2 | N2];
      cbn in Hv; [| discriminate].
    injection Hv as <-.
    destruct (getTransferFeeEstimateApiUrl net); cbn [negb].
    + exists net. split; [exact Hnet | reflexivity].
    + eexists. split; [reflexivity | congruence].
Qed.

Lemma builder_and_verifier_agree_on_version_witness :
  exists net',
    network (fst (generateTransaction (Sample.node_lib Sample.rejected)
                    (Sample.payload (Some (Sample.bare 0)) None) "sender-key" None))
      = Some net'
    /\ version net' = 0%Z.
Proof.
  apply (builder_and_verifier_agree_on_version (Sample.node_lib Sample.rejected)
           (Sample.payload (Some (Sample.bare 0)) None) "sender-key" None
           (Sample.bare 0) 0%Z); reflexivity.
Defined.

End BuildMore.

(* ================================================================== *)
(** ** Broadcast: rejections, the single attempt and the raw form *)
(* ================================================================== *)

Module BroadcastMore.
Import Tx Rules Obs EffFacts.



(** [X21] When the node does not accept the transaction and its answer has
    no truthy [error] (an object without one, or a string, number or
    boolean), [finishTransaction] logs nothing and throws "Unable to submit
    transaction". *)
Theorem finishTransaction_rejected_without_error lib tx nodeUrl res body err :
  broadcastTX lib nodeUrl (serialize tx) = Ok res ->
  ok res = false ->
  json res = Ok body ->
  get_prop body "error" = Ok err ->
  truthy err = false ->
  finishTransaction lib tx nodeUrl
  = ([EvBroadcastTX nodeUrl (serialize tx)], Throw "Unable to submit transaction").
Proof.
  intros Hres Hok Hjson Hget Herr.
  unfold finishTransaction. rewrite Hres, bind_call_Ok, Hok, Hjson, bind_lift_Ok.
  rewrite Hget, bind_lift_Ok, Herr. reflexivity.
Qed.

Lemma finishTransaction_rejected_without_error_witness :
  finishTransaction (Sample.node_lib rejected_bare) Sample.signed_tx "https://node.example"
  = ([EvBroadcastTX "https://node.example" (serialize Sample.signed_tx)],
     Throw "Unable to submit transaction").
Proof.
  apply (finishTransaction_rejected_without_error (Sample.node_lib rejected_bare)
           Sample.signed_tx "https://node.example"
           {| ok := false; json := Ok (JsObj [("message", JsStr "bad request")]) |}
           (JsObj [("message", JsStr "bad request")]) JsUndefined);
    reflexivity.
Defined.

(** [X22] [finishTransaction] makes a single attempt: in every run the
    first call sends the serialized bytes to the given node and no later
    call is a broadcast. *)
Theorem finishTransaction_single_attempt lib tx nodeUrl :
  exists rest,
    trace (finishTransaction lib tx nodeUrl) = EvBroadcastTX nodeUrl (serialize tx) :: rest
    /\ Forall (fun e => is_broadcast e = false) rest.
Proof.
  unfold finishTransaction.
  destruct (broadcastTX lib nodeUrl (serialize tx)) as [res | msg].
  2:{ exists []. split; [reflexivity | constructor]. }
  rewrite bind_call_Ok. cbn [trace fst]. eexists. split; [reflexivity |].
  destruct (ok res).
  - rewrite bind_lift.
    destruct (json res) as [[ | | | | s | | ] | msg]; constructor.
  - rewrite bind_lift. destruct (json res) as [response | msg]; [| constructor].
    rewrite bind_lift.
    destruct (get_prop response "error") as [err | msg]; [| constructor].
    destruct (truthy err); [| constructor].
    rewrite bind_lift.
    destruct (get_prop response "reason") as [reason | msg]; [| constructor].
    repeat constructor.
Qed.

Lemma from_hex_byte (x : byte) (rest : string) :
  from_hex (String (hex_digit (Byte.to_N x / 16)%N)
              (String (hex_digit (Byte.to_N x mod 16)%N) rest))
  = x :: from_hex rest.
Proof. destruct x; reflexivity. Qed.

(** Decoding the hex form of a buffer gives the buffer back. *)
Lemma from_hex_toString_hex (b : Buffer) : from_hex (toString_hex b) = b.
Proof.
  induction b as [| x rest IH]; [reflexivity |].
  cbn [toString_hex]. rewrite from_hex_byte, IH. reflexivity.
Qed.

Lemma toString_hex_length (b : Buffer) :
  String.length (toString_hex b) = 2 * List.length b.
Proof.
  induction b as [| x rest IH]; [reflexivity |].
  cbn [toString_hex String.length List.length]. rewrite IH. lia.
Qed.

(** [X23] The raw form returned on success is "0x" followed by two hex
    digits per serialized byte, and decodes back to exactly the bytes that
    were sent. *)
Theorem finishTransaction_raw_round_trip lib tx nodeUrl r :
  outcome (finishTransaction lib tx nodeUrl) = Ok r ->
  exists hex,
    txRaw r = ("0x" ++ hex)%string
    /\ String.length hex = 2 * List.length (serialize tx)
    /\ from_hex hex = serialize tx
    /\ In (EvBroadcastTX nodeUrl (from_hex hex)) (trace (finishTransaction lib tx nodeUrl)).
Proof.
  unfold finishTransaction.
  destruct (broadcastTX lib nodeUrl (serialize tx)) as [res | msg]; [| discriminate].
  rewrite bind_call_Ok. cbn [outcome trace fst snd].
  destruct (ok res).
  - rewrite bind_lift.
    destruct (json res) as [[ | | | | s | | ] | msg]; cbn [snd throw ret]; try discriminate.
    intros H. injection H as <-. exists (toString_hex (serialize tx)).
    rewrite from_hex_toString_hex, toString_hex_length.
    repeat split. left. reflexivity.
  - rewrite bind_lift. destruct (json res) as [response | msg]; [| discriminate].
    rewrite bind_lift.
    destruct (get_prop response "error") as [err | msg]; [| discriminate].
    destruct (truthy err); [| discriminate].
    rewrite bind_lift.
    destruct (get_prop response "reason") as [reason | msg]; discriminate.
Qed.

Lemma finishTransaction_raw_round_trip_witness :
  exists hex,
    txRaw {| txId := "0xabc123"; txRaw := "0x000000000104abcd" |} = ("0x" ++ hex)%string
    /\ String.length hex = 2 * List.length (serialize Sample.signed_tx)
    /\ from_hex hex = serialize Sample.signed_tx
    /\ In (EvBroadcastTX "https://node.example" (from_hex hex))
          (trace (finishTransaction (Sample.node_lib (Sample.accepted "abc123"))
                    Sample.signed_tx "https://node.example")).
Proof.
  apply (finishTransaction_raw_round_trip (Sample.node_lib (Sample.accepted "abc123"))
           Sample.signed_tx "https://node.example"
           {| txId := "0xabc123"; txRaw := "0x000000000104abcd" |}).
  reflexivity.
Defined.

Lemma replace_quote_free (s : string) :
  quote_free s = true -> Js.replace dquote_str EmptyString s = s.
Proof.
  induction s as [| c s IH]; [reflexivity |].
  cbn [quote_free Js.replace dquote_str starts_with]. intros H.
  apply andb_true_iff in H. destruct H as [Hc Hs].
  apply negb_true_iff in Hc. rewrite Hc. cbn [andb]. rewrite (IH Hs). reflexivity.
Qed.

(** [X24] [finishTransaction] returns exactly when the node accepts the
    transaction and its answer is a JSON string; the id returned is "0x"
    followed by that string with its first double quote removed. *)
Theorem finishTransaction_succeeds_iff lib tx nodeUrl r :
  outcome (finishTransaction lib tx nodeUrl) = Ok r <->
  exists res s,
    broadcastTX lib nodeUrl (serialize tx) = Ok res
    /\ ok res = true
    /\ json res = Ok (JsStr s)
    /\ r = {| txId := ("0x" ++ Js.replace dquote_str EmptyString s)%string;
              txRaw := ("0x" ++ toString_hex (serialize tx))%string |}.
Proof.
  unfold finishTransaction. split.
  - destruct (broadcastTX lib nodeUrl (serialize tx)) as [res | msg]; [| discriminate].
    rewrite bind_call_Ok. cbn [outcome snd].
    destruct (ok res) eqn:Hok.
    + rewrite bind_lift.
      destruct (json res) as [[ | | | | s | | ] | msg] eqn:Hj; cbn [snd throw ret];
        try discriminate.
      intros H. injection H as <-. exists res, s. repeat split; assumption.
    + rewrite bind_lift. destruct (json res) as [response | msg]; [| discriminate].
      rewrite bind_lift.
      destruct (get_prop response "error") as [err | msg]; [| discriminate].
      destruct (truthy err); [| discriminate].
      rewrite bind_lift.
      destruct (get_prop response "reason") as [reason | msg]; discriminate.
  - intros (res & s & Hres & Hok & Hj & ->).
    rewrite Hres, bind_call_Ok, Hok, Hj, bind_lift_Ok. reflexivity.
Qed.

Lemma finishTransaction_succeeds_iff_witness :
  outcome (finishTransaction (Sample.node_lib (Sample.accepted "abc123"))
             Sample.signed_tx "https://node.example")
  = Ok {| txId := "0xabc123"; txRaw := "0x000000000104abcd" |}.
Proof.
  apply (proj2 (finishTransaction_succeeds_iff (Sample.node_lib (Sample.accepted "abc123"))
                  Sample.signed_tx "https://node.example"
                  {| txId := "0xabc123"; txRaw := "0x000000000104abcd" |})).
  exists {| ok := true; json := Ok (JsStr "abc123") |}, "abc123".
  repeat split; reflexivity.
Defined.

(** [X25] When the accepted answer is an id with no double quote in it,
    the id returned is "0x" followed by that id, unchanged. *)
Theorem finishTransaction_plain_id lib tx nodeUrl res s :
  broadcastTX lib nodeUrl (serialize tx) = Ok res ->
  ok res = true ->
  json res = Ok (JsStr s) ->
  quote_free s = true ->
  finishTransaction lib tx nodeUrl
  = ([EvBroadcastTX nodeUrl (serialize tx)],
     Ok {| txId := ("0x" ++ s)%string;
           txRaw := ("0x" ++ toString_hex (serialize tx))%string |}).
Proof.
  intros Hres Hok Hj Hq. unfold finishTransaction.
  rewrite Hres, bind_call_Ok, Hok, Hj, bind_lift_Ok, (replace_quote_free s Hq).
  reflexivity.
Qed.

Lemma finishTransaction_plain_id_witness :
  finishTransaction
    (Sample.node_lib
       (Sample.accepted "8d2b1e6f0c5a4b79a1f3d27c9e604b5f7a1c3e5d9b7f2a4c6e8d0b1a3c5e7f90"))
    Sample.signed_tx "https://node.example"
  = ([EvBroadcastTX "https://node.example" (serialize Sample.signed_tx)],
     Ok {| txId := "0x8d2b1e6f0c5a4b79a1f3d27c9e604b5f7a1c3e5d9b7f2a4c6e8d0b1a3c5e7f90";
           txRaw := "0x000000000104abcd" |}).
Proof.
  apply (finishTransaction_plain_id
           (Sample.node_lib
              (Sample.accepted
                 "8d2b1e6f0c5a4b79a1f3d27c9e604b5f7a1c3e5d9b7f2a4c6e8d0b1a3c5e7f90"))
           Sample.signed_tx "https://node.example"
           {| ok := true;
              json := Ok (JsStr
                "8d2b1e6f0c5a4b79a1f3d27c9e604b5f7a1c3e5d9b7f2a4c6e8d0b1a3c5e7f90") |}
           "8d2b1e6f0c5a4b79a1f3d27c9e604b5f7a1c3e5d9b7f2a4c6e8d0b1a3c5e7f90");
    reflexivity.
Defined.

End BroadcastMore.

(* ================================================================== *)
(** ** Submission handler: toasts, bookkeeping and unprotected cleanup *)
(* ================================================================== *)

Module SubmitMore.
Import Submit Obs EffFacts SubmitFacts.

Lemma handleSubmit_guarded h :
  handleSubmit h
  = Eff.bind (call EvSetIsLoading (setIsLoading h))
      (fun _ => Eff.bind (guarded h) (fun _ => cleanup h)).
Proof. reflexivity. Qed.

(** The run of the [try] body for each answer of the broadcast. *)
Lemma attempt_throws h tx msg :
  broadcastTransaction h tx (stacksNetwork h) = Throw msg ->
  attempt h tx = ([EvBroadcastTransaction tx (stacksNetwork h)], Throw msg).
Proof. intros H. unfold attempt. rewrite H. reflexivity. Qed.

Lemma attempt_rejected h tx reason :
  broadcastTransaction h tx (stacksNetwork h) = Ok (TxBroadcastResultRejected reason) ->
  attempt h tx
  = ([EvBroadcastTransaction tx (stacksNetwork h); EvToastError (getErrorMessage reason)],
     toast_error h (getErrorMessage reason)).
Proof. intros H. unfold attempt. rewrite H, bind_call_Ok. reflexivity. Qed.

Lemma attempt_accepted h tx txid :
  broadcastTransaction h tx (stacksNetwork h) = Ok (TxBroadcastResultOk txid) ->
  attempt h tx
  = Eff.bind (call (EvBroadcastTransaction tx (stacksNetwork h)) (Ok tt))
      (fun _ =>
         Eff.bind (call (EvDoSetLatestNonce tx) (doSetLatestNonce h tx))
           (fun _ =>
              Eff.bind (call EvRevalidate (revalidate h))
                (fun _ => call (EvToastSuccess "Transaction submitted!")
                            (toast_success h "Transaction submitted!")))).
Proof. intros H. unfold attempt. rewrite H, !bind_call_Ok. reflexivity. Qed.

Lemma cleanup_trace_cleanup h :
  Forall (fun e => is_cleanup e = true) (trace (cleanup h)).
Proof.
  unfold cleanup.
  destruct (onClose h) as [[] | m1]; [| repeat constructor].
  rewrite bind_call_Ok. cbn [trace fst]. constructor; [reflexivity |].
  destruct (setIsIdle h) as [[] | m2]; [| repeat constructor].
  rewrite bind_call_Ok. cbn [trace fst]. repeat constructor.
Qed.

Lemma guarded_trace_no_cleanup h :
  Forall (fun e => is_cleanup e = false) (trace (guarded h)).
Proof.
  unfold guarded. destruct (transaction h) as [tx |]; [| constructor].
  destruct (broadcastTransaction h tx (stacksNetwork h)) as [[txid | reason] | msg] eqn:Hb.
  - rewrite (attempt_accepted h tx txid Hb), bind_call_Ok.
    destruct (doSetLatestNonce h tx) as [[] | m1]; [| repeat constructor].
    rewrite bind_call_Ok.
    destruct (revalidate h) as [[] | m2]; [| repeat constructor].
    rewrite bind_call_Ok.
    destruct (toast_success h "Transaction submitted!") as [[] | m3]; repeat constructor.
  - rewrite (attempt_rejected h tx reason Hb).
    destruct (toast_error h (getErrorMessage reason)) as [[] | m1]; repeat constructor.
  - rewrite (attempt_throws h tx msg Hb). repeat constructor.
Qed.

(** [X26] The nonce update, the revalidation and the success toast happen
    only for a transaction that is present and whose broadcast answered
    with a transaction id. *)
Theorem handleSubmit_bookkeeping_after_acceptance h e :
  In e (trace (handleSubmit h)) ->
  is_bookkeeping e = true ->
  exists tx txid,
    transaction h = Some tx
    /\ broadcastTransaction h tx (stacksNetwork h) = Ok (TxBroadcastResultOk txid).
Proof.
  rewrite handleSubmit_guarded. intros Hin He.
  rewrite trace_bind in Hin. apply in_app_or in Hin. destruct Hin as [Hin | Hin].
  { cbn in Hin. destruct Hin as [<- | []]. discriminate He. }
  destruct (outcome (call EvSetIsLoading (setIsLoading h))) as [u | m]; [| contradiction].
  rewrite trace_bind in Hin. apply in_app_or in Hin. destruct Hin as [Hin | Hin].
  - unfold guarded in Hin. destruct (transaction h) as [tx |]; [| contradiction].
    destruct (broadcastTransaction h tx (stacksNetwork h)) as [[txid | reason] | msg] eqn:Hb.
    + exists tx, txid. split; [reflexivity | exact Hb].
    + exfalso. rewrite (attempt_rejected h tx reason Hb) in Hin.
      destruct (toast_error h (getErrorMessage reason)) as [[] | m1]; cbn in Hin;
        repeat (destruct Hin as [Hin | Hin]; [subst e; discriminate He |]); contradiction.
    + exfalso. rewrite (attempt_throws h tx msg Hb) in Hin.
      destruct (toast_error h "Something went wrong") as [[] | m1]; cbn in Hin;
        repeat (destruct Hin as [Hin | Hin]; [subst e; discriminate He |]); contradiction.
  - exfalso. destruct (outcome (guarded h)) as [u' | m]; [| contradiction].
    pose proof (cleanup_trace_cleanup h) as Hc. rewrite Forall_forall in Hc.
    specialize (Hc e Hin). destruct e; discriminate.
Qed.

Lemma handleSubmit_bookkeeping_after_acceptance_witness :
  exists tx txid,
    transaction (hooks_ok (Ok (TxBroadcastResultOk "abc123"))) = Some tx
    /\ broadcastTransaction (hooks_ok (Ok (TxBroadcastResultOk "abc123"))) tx
         (stacksNetwork (hooks_ok (Ok (TxBroadcastResultOk "abc123"))))
       = Ok (TxBroadcastResultOk txid).
Proof.
  apply (handleSubmit_bookkeeping_after_acceptance
           (hooks_ok (Ok (TxBroadcastResultOk "abc123"))) EvRevalidate).
  - cbn. do 3 right. left. reflexivity.
  - reflexivity.
Defined.

(** [X27] Once the loading flag is set, the success toast is shown exactly
    when a transaction is present, its broadcast answers with a
    transaction id, and the nonce update and the revalidation both
    return. *)
Theorem handleSubmit_success_toast_iff h :
  setIsLoading h = Ok tt ->
  (In (EvToastSuccess "Transaction submitted!") (trace (handleSubmit h))
   <-> exists tx txid,
         transaction h = Some tx
         /\ broadcastTransaction h tx (stacksNetwork h) = Ok (TxBroadcastResultOk txid)
         /\ doSetLatestNonce h tx = Ok tt
         /\ revalidate h = Ok tt).
Proof.
  intros Hload. rewrite handleSubmit_guarded, Hload, bind_call_Ok. cbn [trace fst].
  rewrite trace_bind. split.
  - intros [Hin | Hin]; [discriminate |].
    apply in_app_or in Hin. destruct Hin as [Hin | Hin].
    + unfold guarded in Hin. destruct (transaction h) as [tx |]; [| contradiction].
      destruct (broadcastTransaction h tx (stacksNetwork h))
        as [[txid | reason] | msg] eqn:Hb.
      * exists tx, txid. split; [reflexivity | split; [exact Hb |] ].
        rewrite (attempt_accepted h tx txid Hb), bind_call_Ok in Hin.
        destruct (doSetLatestNonce h tx) as [[] | m1].
        2:{ exfalso. destruct (toast_error h "Something went wrong") as [[] | m];
              cbn in Hin;
              repeat (destruct Hin as [Hin | Hin]; [discriminate |]); contradiction. }
        split; [reflexivity |].
        rewrite bind_call_Ok in Hin.
        destruct (revalidate h) as [[] | m2]; [reflexivity |].
        exfalso. destruct (toast_error h "Something went wrong") as [[] | m];
          cbn in Hin;
          repeat (destruct Hin as [Hin | Hin]; [discriminate |]); contradiction.
      * exfalso. rewrite (attempt_rejected h tx reason Hb) in Hin.
        destruct (toast_error h (getErrorMessage reason)) as [[] | m1];
          [| destruct (toast_error h "Something went wrong") as [[] | m] ];
          cbn in Hin;
          repeat (destruct Hin as [Hin | Hin]; [discriminate |]); contradiction.
      * exfalso. rewrite (attempt_throws h tx msg Hb) in Hin.
        destruct (toast_error h "Something went wrong") as [[] | m]; cbn in Hin;
          repeat (destruct Hin as [Hin | Hin]; [discriminate |]); contradiction.
    + exfalso. destruct (outcome (guarded h)) as [u' | m]; [| contradiction].
      pose proof (cleanup_trace_cleanup h) as Hc. rewrite Forall_forall in Hc.
      specialize (Hc _ Hin). discriminate.
  - intros (tx & txid & Htx & Hb & Hn & Hr). right. apply in_or_app. left.
    unfold guarded. rewrite Htx, (attempt_accepted h tx txid Hb), Hn, Hr, !bind_call_Ok.
    destruct (toast_success h "Transaction submitted!") as [[] | m].
    + cbn. do 3 right. left. reflexivity.
    + destruct (toast_error h "Something went wrong") as [[] | m'];
        cbn; do 3 right; left; reflexivity.
Qed.

Lemma handleSubmit_success_toast_iff_witness :
  In (EvToastSuccess "Transaction submitted!")
     (trace (handleSubmit (hooks_ok (Ok (TxBroadcastResultOk "abc123")))))
  <-> exists tx txid,
        transaction (hooks_ok (Ok (TxBroadcastResultOk "abc123"))) = Some tx
        /\ broadcastTransaction (hooks_ok (Ok (TxBroadcastResultOk "abc123"))) tx
             (stacksNetwork (hooks_ok (Ok (TxBroadcastResultOk "abc123"))))
           = Ok (TxBroadcastResultOk txid)
        /\ doSetLatestNonce (hooks_ok (Ok (TxBroadcastResultOk "abc123"))) tx = Ok tt
        /\ revalidate (hooks_ok (Ok (TxBroadcastResultOk "abc123"))) = Ok tt.
Proof.
  apply (handleSubmit_success_toast_iff (hooks_ok (Ok (TxBroadcastResultOk "abc123")))).
  reflexivity.
Defined.

(** [X28] When the broadcast is rejected, the handler shows one error
    toast, the message of the rejection reason, makes no nonce update and
    no revalidation, and then cleans up.  A reason other than the four
    known ones gives the message "Something went wrong". *)
Theorem handleSubmit_rejected h tx reason :
  setIsLoading h = Ok tt ->
  transaction h = Some tx ->
  broadcastTransaction h tx (stacksNetwork h) = Ok (TxBroadcastResultRejected reason) ->
  toast_error h (getErrorMessage reason) = Ok tt ->
  onClose h = Ok tt ->
  setIsIdle h = Ok tt ->
  doChangeScreen h (ScreenPaths_HOME h) = Ok tt ->
  handleSubmit h
  = ([EvSetIsLoading;
      EvBroadcastTransaction tx (stacksNetwork h);
      EvToastError (getErrorMessage reason);
      EvOnClose; EvSetIsIdle; EvDoChangeScreen (ScreenPaths_HOME h)],
     Ok tt)
  /\ (~ In reason ["ConflictingNonceInMempool"; "BadNonce"; "NotEnoughFunds"; "FeeTooLow"] ->
      getErrorMessage reason = "Something went wrong").
Proof.
  intros Hload Htx Hb Htoast Hclose Hidle Hscreen. split.
  - rewrite handleSubmit_guarded, Hload, bind_call_Ok.
    unfold guarded. rewrite Htx, (attempt_rejected h tx reason Hb), Htoast.
    rewrite (cleanup_runs h Hclose Hidle Hscreen). reflexivity.
  - intros Hout. unfold getErrorMessage.
    destruct (String.eqb_spec reason "ConflictingNonceInMempool") as [E | _].
    { exfalso. apply Hout. left. symmetry. exact E. }
    destruct (String.eqb_spec reason "BadNonce") as [E | _].
    { exfalso. apply Hout. right. left. symmetry. exact E. }
    destruct (String.eqb_spec reason "NotEnoughFunds") as [E | _].
    { exfalso. apply Hout. right. right. left. symmetry. exact E. }
    destruct (String.eqb_spec reason "FeeTooLow") as [E | _].
    { exfalso. apply Hout. right. right. right. left. symmetry. exact E. }
    reflexivity.
Qed.

Lemma handleSubmit_rejected_witness :
  handleSubmit (hooks_ok (Ok (TxBroadcastResultRejected "FeeTooLow")))
  = ([EvSetIsLoading;
      EvBroadcastTransaction Sample.signed_tx Sample.testnet;
      EvToastError "Fee is too low.";
      EvOnClose; EvSetIsIdle; EvDoChangeScreen "/"],
     Ok tt).
Proof.
  apply (handleSubmit_rejected (hooks_ok (Ok (TxBroadcastResultRejected "FeeTooLow")))
           Sample.signed_tx "FeeTooLow"); reflexivity.
Defined.

(** [X29] The cleanup is not protected: when the close callback throws,
    the handler rejects with that error, the loading flag is not cleared
    and the screen is not changed. *)
Theorem handleSubmit_close_throws h msg :
  setIsLoading h = Ok tt ->
  toast_error h "Something went wrong" = Ok tt ->
  onClose h = Throw msg ->
  outcome (handleSubmit h) = Throw msg
  /\ ~ In EvSetIsIdle (trace (handleSubmit h))
  /\ (forall screen, ~ In (EvDoChangeScreen screen) (trace (handleSubmit h))).
Proof.
  intros Hload Htoast Hclose.
  assert (Hg : exists t, guarded h = (t, Ok tt)).
  { unfold guarded. destruct (transaction h) as [tx |].
    - apply guarded_attempt_completes. exact Htoast.
    - exists []. reflexivity. }
  destruct Hg as [t Hg].
  assert (Hrun : handleSubmit h = (EvSetIsLoading :: t ++ [EvOnClose], Throw msg)).
  { rewrite handleSubmit_guarded, Hload, bind_call_Ok, Hg.
    unfold cleanup. rewrite Hclose. reflexivity. }
  pose proof (guarded_trace_no_cleanup h) as Hnc. rewrite Hg in Hnc. cbn [trace fst] in Hnc.
  rewrite Forall_forall in Hnc.
  rewrite Hrun. cbn [outcome trace fst snd]. split; [reflexivity | split].
  - intros [Hin | Hin]; [discriminate |].
    apply in_app_or in Hin. destruct Hin as [Hin | [Hin | []]]; [| discriminate].
    specialize (Hnc _ Hin). discriminate.
  - intros screen [Hin | Hin]; [discriminate |].
    apply in_app_or in Hin. destruct Hin as [Hin | [Hin | []]]; [| discriminate].
    specialize (Hnc _ Hin). discriminate.
Qed.

Lemma handleSubmit_close_throws_witness :
  outcome (handleSubmit hooks_close_throws) = Throw "drawer already closed"
  /\ ~ In EvSetIsIdle (trace (handleSubmit hooks_close_throws))
  /\ (forall screen, ~ In (EvDoChangeScreen screen) (trace (handleSubmit hooks_close_throws))).
Proof.
  apply (handleSubmit_close_throws hooks_close_throws "drawer already closed");
    reflexivity.
Defined.

(** [X30] A failure after an accepted broadcast is reported as a failure:
    when the nonce update throws, the handler skips the revalidation and
    the success toast, shows "Something went wrong" and cleans up; when
    the revalidation throws, it does the same after the nonce update. *)
Theorem handleSubmit_bookkeeping_failure h tx txid msg :
  setIsLoading h = Ok tt ->
  transaction h = Some tx ->
  broadcastTransaction h tx (stacksNetwork h) = Ok (TxBroadcastResultOk txid) ->
  toast_error h "Something went wrong" = Ok tt ->
  onClose h = Ok tt ->
  setIsIdle h = Ok tt ->
  doChangeScreen h (ScreenPaths_HOME h) = Ok tt ->
  (doSetLatestNonce h tx = Throw msg ->
   handleSubmit h
   = ([EvSetIsLoading;
       EvBroadcastTransaction tx (stacksNetwork h);
       EvDoSetLatestNonce tx;
       EvToastError "Something went wrong";
       EvOnClose; EvSetIsIdle; EvDoChangeScreen (ScreenPaths_HOME h)],
      Ok tt))
  /\ (doSetLatestNonce h tx = Ok tt ->
      revalidate h = Throw msg ->
      handleSubmit h
      = ([EvSetIsLoading;
          EvBroadcastTransaction tx (stacksNetwork h);
          EvDoSetLatestNonce tx;
          EvRevalidate;
          EvToastError "Something went wrong";
          EvOnClose; EvSetIsIdle; EvDoChangeScreen (ScreenPaths_HOME h)],
         Ok tt)).
Proof.
  intros Hload Htx Hb Htoast Hclose Hidle Hscreen. split.
  - intros Hn. rewrite handleSubmit_guarded, Hload, bind_call_Ok.
    unfold guarded. rewrite Htx, (attempt_accepted h tx txid Hb), Hn, bind_call_Ok.
    cbn [Eff.bind call try_catch]. rewrite Htoast.
    rewrite (cleanup_runs h Hclose Hidle Hscreen). reflexivity.
  - intros Hn Hr. rewrite handleSubmit_guarded, Hload, bind_call_Ok.
    unfold guarded. rewrite Htx, (attempt_accepted h tx txid Hb), Hn, Hr, !bind_call_Ok.
    cbn [Eff.bind call try_catch trace outcome fst snd]. rewrite Htoast.
    rewrite (cleanup_runs h Hclose Hidle Hscreen). reflexivity.
Qed.

Lemma handleSubmit_bookkeeping_failure_witness :
  handleSubmit (Sample.hooks (Some Sample.signed_tx) (Ok (TxBroadcastResultOk "abc123")))
  = ([EvSetIsLoading;
      EvBroadcastTransaction Sample.signed_tx Sample.testnet;
      EvDoSetLatestNonce Sample.signed_tx;
      EvToastError "Something went wrong";
      EvOnClose; EvSetIsIdle; EvDoChangeScreen "/"],
     Ok tt).
Proof.
  apply (proj1 (handleSubmit_bookkeeping_failure
                  (Sample.hooks (Some Sample.signed_tx) (Ok (TxBroadcastResultOk "abc123")))
                  Sample.signed_tx "abc123" "nonce store unavailable"
                  eq_refl eq_refl eq_refl eq_refl eq_refl eq_refl eq_refl)).
  reflexivity.
Defined.

End SubmitMore.
